(** * Rule-based scoring engine and backtest binning

    A shallow embedding of [analysis_engine.py] and [backtest_engine.py]:
    the rating mapper [score_to_rating], the indicator engine
    [compute_indicators], the row scorer [_score_from_row] and the backtest
    [backtest_score_bins].

    Python [int] is [Z]; a Python / numpy [float] is a binary64 primitive
    float, so that every comparison of the source ([close > ma],
    [r < 30], [m > 0.08], ...) is the IEEE comparison on the same doubles the
    interpreter uses (a decimal literal denotes the nearest double in both). *)

From Stdlib Require Import ZArith List String Ascii Floats DecimalString Lia Bool.
From Stdlib Require Import Sorted Permutation.
Import ListNotations.

#[local] Set Warnings "-inexact-float".
#[local] Open Scope Z_scope.

(* ------------------------------------------------------------------ *)
(** ** Python and pandas primitives *)

Module Py.

(** A value read from a row of a frame: [Some f] is a float (possibly NaN);
    [None] stands for a key that is absent (where [row.get(k, np.nan)]
    yields NaN) and for the object [None]; [pd.notna] is false on both. *)
Definition cell := option float.

Definition notna (x : cell) : bool :=
  match x with
  | Some f => negb (PrimFloat.is_nan f)
  | None => false
  end.

(** [float(x)]; the source applies it only under a [pd.notna(x)] guard, so
    the [None] branch is never reached. *)
Definition float_ (x : cell) : float :=
  match x with
  | Some f => f
  | None => PrimFloat.nan
  end.

(** Comparison operators, argument order as in the source text. *)
Definition lt (a b : float) : bool := PrimFloat.ltb a b.
Definition gt (a b : float) : bool := PrimFloat.ltb b a.
Definition le (a b : float) : bool := PrimFloat.leb a b.
Definition ge (a b : float) : bool := PrimFloat.leb b a.

(** Conversion of a Python [int] to a double (exact below 2^53). *)
Definition of_int (z : Z) : float :=
  if z <? 0 then PrimFloat.opp (PrimFloat.of_uint63 (Uint63.of_Z (- z)))
  else PrimFloat.of_uint63 (Uint63.of_Z z).

(** *** The format specification [.Nf]

    [format(x, ".Nf")] prints the exact binary value of [x] rounded to [N]
    decimals, ties to even, with the sign taken from the sign bit. *)

Definition round_half_even (num den : Z) : Z :=
  let q := num / den in
  let r := num mod den in
  match 2 * r ?= den with
  | Lt => q
  | Gt => q + 1
  | Eq => if Z.even q then q else q + 1
  end.

Definition decimal (n : Z) : string :=
  NilZero.string_of_uint (N.to_uint (Z.to_N n)).

Fixpoint zeros (k : nat) : string :=
  match k with
  | O => EmptyString
  | S k' => String "0"%char (zeros k')
  end.

Definition place (d : nat) (n : Z) : string :=
  let ds := decimal n in
  let ds := (zeros (S d - String.length ds) ++ ds)%string in
  let k := (String.length ds - d)%nat in
  match d with
  | O => ds
  | S _ => (substring 0 k ds ++ "." ++ substring k d ds)%string
  end.

Definition sign (s : bool) : string := if s then "-"%string else ""%string.

Definition format_fixed (d : nat) (x : float) : string :=
  match Prim2SF x with
  | S754_nan => "nan"%string
  | S754_infinity s => (sign s ++ "inf")%string
  | S754_zero s => (sign s ++ place d 0)%string
  | S754_finite s m e =>
      let p := 10 ^ Z.of_nat d in
      let n :=
        if 0 <=? e then Z.pos m * 2 ^ e * p
        else round_half_even (Z.pos m * p) (2 ^ (- e)) in
      (sign s ++ place d n)%string
  end.

End Py.

(* ------------------------------------------------------------------ *)
(** ** Frames *)

(** One daily record of the raw series: [date, open, high, low, close,
    volume]; dates are day numbers. *)
Record Bar := mkBar {
  date : Z;
  open : float;
  high : float;
  low : float;
  close : float;
  volume : float
}.

(** One row of the frame returned by [compute_indicators]: the raw record
    and the derived columns. *)
Record Row := mkRow {
  bar : Bar;
  ret : Py.cell;
  rsi14 : Py.cell;
  ma20 : Py.cell;
  ma60 : Py.cell;
  ma120 : Py.cell;
  vol_ma20 : Py.cell;
  vol_ratio : Py.cell;
  vol20_pct : Py.cell;
  mom20 : Py.cell;
  mom60 : Py.cell;
  high252 : Py.cell;
  dd252 : Py.cell;
  low20 : Py.cell;
  high20 : Py.cell;
  pos20 : Py.cell
}.

(* ------------------------------------------------------------------ *)
(** ** Rating mapper *)

#[local] Open Scope string_scope.

Definition score_to_rating (score : Z) : string :=
  if score >=? 80 then "적극매수"
  else if score >=? 60 then "매수"
  else if score >=? 40 then "중립"
  else if score >=? 20 then "매도"
  else "적극매도".

(** The five ratings in their ordinal order, and the label each one carries
    in the source (적극매수 is Strong Buy, 매수 Buy, 중립 Neutral, 매도 Sell,
    적극매도 Strong Sell). *)
Inductive Rating := StrongSell | Sell | Neutral | Buy | StrongBuy.

Definition label (r : Rating) : string :=
  match r with
  | StrongBuy => "적극매수"
  | Buy => "매수"
  | Neutral => "중립"
  | Sell => "매도"
  | StrongSell => "적극매도"
  end.

Definition rank (r : Rating) : nat :=
  match r with
  | StrongSell => 0
  | Sell => 1
  | Neutral => 2
  | Buy => 3
  | StrongBuy => 4
  end.

Definition all_ratings : list Rating := [StrongBuy; Buy; Neutral; Sell; StrongSell].

(** The rating a label denotes. *)
Definition rating_of_label (l : string) : option Rating :=
  find (fun r => String.eqb l (label r)) all_ratings.

(** Ordinal level of a label; labels that denote no rating sit at 0. *)
Definition level (l : string) : nat :=
  match rating_of_label l with
  | Some r => rank r
  | None => 0
  end.

(* ------------------------------------------------------------------ *)
(** ** Row scorer *)

(** The two locals the scorer mutates: the running score [s] and the list
    [reasons]. *)
Definition acc := (Z * list string)%type.

Definition add (d : Z) (st : acc) : acc := (fst st + d, snd st).
Definition append (reason : string) (st : acc) : acc := (fst st, (snd st ++ [reason])%list).

Definition above (c : float) (x : Py.cell) : bool :=
  Py.notna x && Py.gt c (Py.float_ x).

Definition factor_ma20 (row : Row) (st : acc) : acc :=
  let c := close (bar row) in
  if Py.notna (ma20 row) then
    let st := add (if above c (ma20 row) then 8 else -8) st in
    append (if above c (ma20 row) then "20일선 위" else "20일선 아래") st
  else st.

Definition factor_ma60 (row : Row) (st : acc) : acc :=
  let c := close (bar row) in
  if Py.notna (ma60 row) then
    let st := add (if above c (ma60 row) then 10 else -10) st in
    append (if above c (ma60 row) then "60일선 위" else "60일선 아래") st
  else st.

Definition factor_ma120 (row : Row) (st : acc) : acc :=
  let c := close (bar row) in
  if Py.notna (ma120 row) then
    let st := add (if above c (ma120 row) then 6 else -6) st in
    append (if above c (ma120 row) then "120일선 위" else "120일선 아래") st
  else st.

Definition factor_alignment (row : Row) (st : acc) : acc :=
  if Py.notna (ma20 row) && Py.notna (ma60 row) && Py.notna (ma120 row) then
    let a := Py.float_ (ma20 row) in
    let b := Py.float_ (ma60 row) in
    let c := Py.float_ (ma120 row) in
    if Py.gt a b && Py.gt b c then
      append "이평 정배열(상승 추세 정렬)" (add 8 st)
    else if Py.lt a b && Py.lt b c then
      append "이평 역배열(하락 추세 정렬)" (add (-8) st)
    else st
  else st.

Definition factor_rsi (row : Row) (st : acc) : acc :=
  if Py.notna (rsi14 row) then
    let r := Py.float_ (rsi14 row) in
    if Py.lt r 30 then
      append ("RSI " ++ Py.format_fixed 1 r ++ "(과매도)") (add 10 st)
    else if Py.gt r 70 then
      append ("RSI " ++ Py.format_fixed 1 r ++ "(과매수)") (add (-10) st)
    else
      append ("RSI " ++ Py.format_fixed 1 r ++ "(중립)") st
  else st.

Definition factor_mom20 (row : Row) (st : acc) : acc :=
  if Py.notna (mom20 row) then
    let m := Py.float_ (mom20 row) in
    if Py.gt m 0.08 then
      append ("1개월 모멘텀 +" ++ Py.format_fixed 1 (m * 100) ++ "%") (add 6 st)
    else if Py.lt m (-0.08) then
      append ("1개월 모멘텀 " ++ Py.format_fixed 1 (m * 100) ++ "%") (add (-6) st)
    else st
  else st.

Definition factor_mom60 (row : Row) (st : acc) : acc :=
  if Py.notna (mom60 row) then
    let m := Py.float_ (mom60 row) in
    if Py.gt m 0.15 then
      append ("3개월 모멘텀 +" ++ Py.format_fixed 1 (m * 100) ++ "%") (add 6 st)
    else if Py.lt m (-0.15) then
      append ("3개월 모멘텀 " ++ Py.format_fixed 1 (m * 100) ++ "%") (add (-6) st)
    else st
  else st.

Definition factor_vol_ratio (row : Row) (st : acc) : acc :=
  if Py.notna (vol_ratio row) then
    let vr := Py.float_ (vol_ratio row) in
    if Py.ge vr 1.8 then
      append ("거래량 급증(" ++ Py.format_fixed 2 vr ++ "배)") (add 8 st)
    else if Py.le vr 0.6 then
      append ("거래량 위축(" ++ Py.format_fixed 2 vr ++ "배)") (add (-3) st)
    else st
  else st.

Definition factor_vol20 (row : Row) (st : acc) : acc :=
  if Py.notna (vol20_pct row) then
    let v := Py.float_ (vol20_pct row) in
    if Py.ge v 35 then
      append ("변동성 높음(" ++ Py.format_fixed 1 v ++ "%)") (add (-5) st)
    else if Py.le v 15 then
      append ("변동성 낮음(" ++ Py.format_fixed 1 v ++ "%)") (add 2 st)
    else st
  else st.

Definition factor_dd252 (row : Row) (st : acc) : acc :=
  if Py.notna (dd252 row) then
    let dd := Py.float_ (dd252 row) in
    if Py.le dd (-0.30) then
      append ("52주 고점 대비 " ++ Py.format_fixed 0 (dd * 100) ++ "% (낙폭)") (add 5 st)
    else if Py.ge dd (-0.05) then
      append "52주 고점 근처(추격 부담)" (add (-3) st)
    else st
  else st.

Definition factor_pos20 (row : Row) (st : acc) : acc :=
  if Py.notna (pos20 row) then
    let p := Py.float_ (pos20 row) in
    if Py.le p 0.15 then
      append "최근 20일 저점권(지지 테스트)" (add 3 st)
    else if Py.ge p 0.85 then
      append "최근 20일 고점권(저항/과열)" (add (-2) st)
    else st
  else st.

(** The locals [s] and [reasons] as they stand just before the clamp. *)
Definition score_state (row : Row) : acc :=
  let st : acc := (50, []) in
  let st := factor_ma20 row st in
  let st := factor_ma60 row st in
  let st := factor_ma120 row st in
  let st := factor_alignment row st in
  let st := factor_rsi row st in
  let st := factor_mom20 row st in
  let st := factor_mom60 row st in
  let st := factor_vol_ratio row st in
  let st := factor_vol20 row st in
  let st := factor_dd252 row st in
  factor_pos20 row st.

Definition feature (x : Py.cell) : option float :=
  if Py.notna x then Some (Py.float_ x) else None.

Definition features_of (row : Row) : list (string * option float) :=
  [ ("close", Some (close (bar row)));
    ("rsi14", feature (rsi14 row));
    ("ma20", feature (ma20 row));
    ("ma60", feature (ma60 row));
    ("ma120", feature (ma120 row));
    ("vol_ratio", feature (vol_ratio row));
    ("vol20_pct", feature (vol20_pct row));
    ("mom20", feature (mom20 row));
    ("mom60", feature (mom60 row));
    ("dd252", feature (dd252 row));
    ("pos20", feature (pos20 row)) ].

Definition _score_from_row (row : Row) : Z * list string * list (string * option float) :=
  let st := score_state row in
  let s := Z.max 0 (Z.min 100 (fst st)) in
  (s, snd st, features_of row).

Definition score_of (row : Row) : Z := fst (fst (_score_from_row row)).
Definition reasons_of (row : Row) : list string := snd (fst (_score_from_row row)).

(** [rule_result_from_df]: scores the last row of the frame; [df.iloc[-1]]
    raises on an empty frame ([None] here). *)
Record RuleResult := mkRuleResult {
  rr_score : Z;
  rr_rating : string;
  rr_comment_rule : string;
  rr_features : list (string * option float);
  rr_reasons : list string
}.

Definition rule_result_from_df (df : list Row) : option RuleResult :=
  match rev df with
  | [] => None
  | last :: _ =>
      let '(score, reasons, features) := _score_from_row last in
      let rating := score_to_rating score in
      let comment_rule :=
        rating ++ " (점수 " ++ Py.decimal score ++ "). "
               ++ String.concat " / " (firstn 5 reasons) in
      Some (mkRuleResult score rating comment_rule features reasons)
  end.

(* ------------------------------------------------------------------ *)
(** ** Series operations of pandas *)

Module Pd.

#[local] Open Scope float_scope.

(** A column of floats; NaN marks an undefined entry. *)
Definition Series := list float.

(** Positional read, NaN outside the column. *)
Definition at_ (xs : Series) (i : Z) : float :=
  if (i <? 0)%Z then nan else nth (Z.to_nat i) xs nan.

Definition positions (xs : Series) : list Z :=
  map Z.of_nat (seq 0 (List.length xs)).

(** [xs.shift(k)] for an offset the library can take (see [shift_checked]):
    entry [i] of the result is entry [i - k] of [xs]. *)
Definition shift (k : Z) (xs : Series) : Series :=
  map (fun i => at_ xs (i - k)%Z) (positions xs).

(** The offsets that fit the platform integer ([np.intp], a signed 64-bit
    integer) to which pandas converts [periods] before it rolls the values. *)
Definition fits_intp (k : Z) : bool :=
  ((- 2 ^ 63 <=? k) && (k <? 2 ^ 63))%Z.

(** [xs.shift(k)] for an arbitrary Python integer [k]: a zero offset and an
    empty column are copied as they are; otherwise the offset is converted
    to the platform integer, which raises OverflowError ([None] here) when it
    does not fit. *)
Definition shift_checked (k : Z) (xs : Series) : option Series :=
  if (k =? 0)%Z || (List.length xs =? 0)%nat then Some xs
  else if fits_intp k then Some (shift k xs)
  else None.

(** Element-wise binary operation on two columns of one frame; the result
    is indexed like the left one. *)
Definition map2 (f : float -> float -> float) (xs ys : Series) : Series :=
  map (fun i => f (at_ xs i) (at_ ys i)) (positions xs).

Definition div (xs ys : Series) : Series := map2 PrimFloat.div xs ys.
Definition sub (xs ys : Series) : Series := map2 PrimFloat.sub xs ys.
Definition add_scalar (xs : Series) (c : float) : Series := map (fun x => x + c) xs.
Definition sub_scalar (xs : Series) (c : float) : Series := map (fun x => x - c) xs.
Definition mul_scalar (xs : Series) (c : float) : Series := map (fun x => x * c) xs.

(** [xs.pct_change()] on a column without gaps. *)
Definition pct_change (xs : Series) : Series :=
  sub_scalar (div xs (shift 1 xs)) 1.

(** The trailing window of [w] entries that ends at position [i], when the
    column has that many entries up to [i]. *)
Definition window (w : nat) (xs : Series) (i : nat) : option (list float) :=
  if (S i <? w)%nat then None
  else Some (firstn w (skipn (S i - w) xs)).

Definition fmax (a b : float) : float := if a <? b then b else a.
Definition fmin (a b : float) : float := if b <? a then b else a.

Definition reduce (op : float -> float -> float) (win : list float) : float :=
  match win with
  | [] => nan
  | x :: rest => fold_left op rest x
  end.

(** [xs.rolling(w).max()] and [.min()]: undefined until [w] observations
    are in the window, and while one of them is NaN. *)
Definition rolling (op : float -> float -> float) (w : nat) (xs : Series) : Series :=
  map (fun i =>
         match window w xs i with
         | None => nan
         | Some win => if existsb is_nan win then nan else reduce op win
         end)
      (seq 0 (List.length xs)).

Definition rolling_max : nat -> Series -> Series := rolling fmax.
Definition rolling_min : nat -> Series -> Series := rolling fmin.

End Pd.

(** [df.sort_values("date")]: ascending by date (the dates of a series are
    distinct, so the order among equal dates is immaterial). *)
Fixpoint insert_by_date (b : Bar) (l : list Bar) : list Bar :=
  match l with
  | [] => [b]
  | x :: l' => if (date b <=? date x)%Z then b :: l else x :: insert_by_date b l'
  end.

Definition sort_values (df : list Bar) : list Bar :=
  fold_right insert_by_date [] df.

(* ------------------------------------------------------------------ *)
(** ** Indicator engine and backtest *)

(** What a call of the backtest ends in: a value, or a raised exception. *)
Inductive exn := IndexError | OverflowError.

Inductive result (A : Type) :=
| Returned (a : A)
| Raised (e : exn).
Arguments Returned {A} a.
Arguments Raised {A} e.

Record BinStat := mkBinStat {
  bin_name : string;
  bin_n : nat;
  bin_win_rate : option float;
  bin_avg_return : option float
}.

Record Overall := mkOverall {
  overall_n : nat;
  overall_win_rate : float;
  overall_avg_return : float
}.

(** The dictionary the backtest returns: [{"ok": False, "message": m}] or
    [{"ok": True, "overall": o, "bins": out, "horizon": h}]. *)
Inductive Outcome :=
| Failure (message : string)
| Report (overall : Overall) (bins : list BinStat) (horizon : Z).

Definition ok (o : Outcome) : bool :=
  match o with
  | Failure _ => false
  | Report _ _ _ => true
  end.

Definition msg_insufficient : string := "백테스트에 필요한 데이터가 부족합니다.".
Definition msg_no_samples : string := "백테스트 표본이 생성되지 않았습니다.".

(** The bin table of the backtest, in source order. *)
Definition bins : list (Z * Z * string) :=
  [ (80, 100, "적극매수권(80-100)");
    (60, 79, "매수권(60-79)");
    (40, 59, "중립권(40-59)");
    (20, 39, "매도권(20-39)");
    (0, 19, "적극매도권(0-19)") ].

(** One entry of [mask = (scores >= lo) & (scores <= hi)]; the scores sit
    in a float array. *)
Definition in_bin (lo hi : Z) (score : float) : bool :=
  Py.ge score (Py.of_int lo) && Py.le score (Py.of_int hi).

(** [range(a, b)]. *)
Definition range (a b : Z) : list Z :=
  map (fun k => a + Z.of_nat k) (seq 0 (Z.to_nat (b - a))).

Section Engine.

(** Numerical routines of the libraries the engine calls, whose
    floating-point algorithms are not part of this repository:
    [pandas_ta.rsi] (which yields [None] on a series that is too short),
    pandas' [rolling(w).mean()] and [rolling(w).std()], numpy's [mean]. *)
Variable ta_rsi : Pd.Series -> nat -> option Pd.Series.
Variable rolling_mean : nat -> Pd.Series -> Pd.Series.
Variable rolling_std : nat -> Pd.Series -> Pd.Series.
Variable np_mean : list float -> float.

Definition compute_indicators (df : list Bar) : list Row :=
  let df := sort_values df in
  let c := map close df in
  let v := map volume df in
  let ret := Pd.pct_change c in
  let rsi14 := ta_rsi c 14 in
  let ma20 := rolling_mean 20 c in
  let ma60 := rolling_mean 60 c in
  let ma120 := rolling_mean 120 c in
  let vol_ma20 := rolling_mean 20 v in
  let vol_ratio := Pd.div v vol_ma20 in
  let vol20_pct :=
    Pd.mul_scalar (Pd.mul_scalar (rolling_std 20 ret) (PrimFloat.sqrt 20)) 100 in
  let mom20 := Pd.sub_scalar (Pd.div c (Pd.shift 20 c)) 1 in
  let mom60 := Pd.sub_scalar (Pd.div c (Pd.shift 60 c)) 1 in
  let high252 := Pd.rolling_max 252 c in
  let dd252 := Pd.sub_scalar (Pd.div c high252) 1 in
  let low20 := Pd.rolling_min 20 c in
  let high20 := Pd.rolling_max 20 c in
  let pos20 :=
    Pd.div (Pd.sub c low20) (Pd.add_scalar (Pd.sub high20 low20) 1e-9) in
  let col (xs : Pd.Series) (i : nat) : Py.cell := Some (nth i xs PrimFloat.nan) in
  map (fun '(i, b) =>
         mkRow b (col ret i)
               (option_map (fun xs => nth i xs PrimFloat.nan) rsi14)
               (col ma20 i) (col ma60 i) (col ma120 i)
               (col vol_ma20 i) (col vol_ratio i) (col vol20_pct i)
               (col mom20 i) (col mom60 i)
               (col high252 i) (col dd252 i)
               (col low20 i) (col high20 i) (col pos20 i))
      (combine (seq 0 (List.length df)) df).

(** The body of the replay loop, over the positions still to visit. *)
Fixpoint replay (df : list Row) (fwd_ret : Pd.Series) (todo : list Z)
         (rows : list (Z * float)) : result (list (Z * float)) :=
  match todo with
  | [] => Returned rows
  | i :: todo' =>
      match nth_error df (Z.to_nat i) with
      | None => Raised IndexError
      | Some row =>
          let '(score, _, _) := _score_from_row row in
          let fwd := Pd.at_ fwd_ret i in
          if PrimFloat.is_nan fwd then replay df fwd_ret todo' rows
          else replay df fwd_ret todo' (rows ++ [(score, fwd)])%list
      end
  end.

Definition bin_stat (scores rets : list float) (b : Z * Z * string) : BinStat :=
  let '(lo, hi, name) := b in
  let mask := map (in_bin lo hi) scores in
  let n := List.length (filter id mask) in
  if (n =? 0)%nat then mkBinStat name 0 None None
  else
    let rr := map snd (filter fst (combine mask rets)) in
    let win_rate := np_mean (map (fun r => if Py.gt r 0 then 1%float else 0%float) rr) in
    let avg_return := np_mean rr in
    mkBinStat name n (Some win_rate) (Some avg_return).

(** [backtest_score_bins(df_raw, horizon)].  The forward return of line 14,
    [df["close"].shift(-horizon) / df["close"] - 1.0], is computed first and
    raises OverflowError when the offset does not fit the platform integer;
    the length guard of lines 18-22 comes after it, the replay loop and the
    bin table last. *)
Definition backtest_score_bins (df_raw : list Bar) (horizon : Z) : result Outcome :=
  let df := compute_indicators df_raw in
  let c := map (fun r => close (bar r)) df in
  match Pd.shift_checked (- horizon) c with
  | None => Raised OverflowError
  | Some shifted =>
      let fwd_ret := Pd.sub_scalar (Pd.div shifted c) 1 in
      let start_i := 260 in
      let end_i := Z.of_nat (List.length df) - horizon - 1 in
      if (end_i <=? start_i)%Z then Returned (Failure msg_insufficient)
      else
        match replay df fwd_ret (range start_i end_i) [] with
        | Raised e => Raised e
        | Returned [] => Returned (Failure msg_no_samples)
        | Returned rows =>
            let scores := map (fun p => Py.of_int (fst p)) rows in
            let rets := map snd rows in
            let out := map (bin_stat scores rets) bins in
            let overall :=
              mkOverall (List.length rets)
                        (np_mean (map (fun r => if Py.gt r 0 then 1%float else 0%float) rets))
                        (np_mean rets) in
            Returned (Report overall out horizon)
        end
  end.

End Engine.

(* ------------------------------------------------------------------ *)
(** ** Bin table and rating table *)

(** The bin table against the rating table: bin by bin, the mask entry of
    an integer score agrees with the integer test [lo <= s <= hi] and with
    the rating mapper. *)
Definition bin_agrees (s : Z) (p : Z * Z * string * Rating) : bool :=
  let '(lo, hi, _, r) := p in
  let hit := in_bin lo hi (Py.of_int s) in
  Bool.eqb hit ((lo <=? s)%Z && (s <=? hi)%Z) &&
  Bool.eqb hit (String.eqb (score_to_rating s) (label r)).

Definition bins_agree (s : Z) : bool :=
  forallb (bin_agrees s) (combine bins all_ratings).

(** The mask entries of one score across the bin table. *)
Definition hits (score : float) : list bool :=
  map (fun b : Z * Z * string => let '(lo, hi, _) := b in in_bin lo hi score) bins.

(* ------------------------------------------------------------------ *)
(** ** Sample rows *)

(** A row that carries a close and the ten indicators the scorer reads. *)
Definition indicator_row (c : float)
           (rsi m20 m60 m120 vr v20 mo20 mo60 dd p20 : Py.cell) : Row :=
  mkRow (mkBar 0 c c c c 0) None rsi m20 m60 m120 None vr v20 mo20 mo60 None dd None None p20.

(** close=100, ma20=95, ma60=90, ma120=85, rsi14=50, vol_ratio=1.0,
    vol20_pct=20, mom20=0, mom60=0, dd252=0, pos20=0.5. *)
Definition scenario1 : Row :=
  indicator_row 100 (Some 50%float) (Some 95%float) (Some 90%float) (Some 85%float)
                (Some 1.0%float) (Some 20%float) (Some 0%float) (Some 0%float)
                (Some 0%float) (Some 0.5%float).

(** The same row ten percent below its 52-week high: dd252 = -0.1. *)
Definition scenario1_off_high : Row :=
  indicator_row 100 (Some 50%float) (Some 95%float) (Some 90%float) (Some 85%float)
                (Some 1.0%float) (Some 20%float) (Some 0%float) (Some 0%float)
                (Some (-0.1)%float) (Some 0.5%float).

(** Every indicator undefined, by absence or by NaN. *)
Definition undefined_row (c : float) : Row :=
  indicator_row c None None None None None None None None None None.

Definition nan_row (c : float) : Row :=
  let u : Py.cell := Some PrimFloat.nan in
  indicator_row c u u u u u u u u u u.

(** Every factor at its most favourable, and at its least favourable. *)
Definition best_row : Row :=
  indicator_row 100 (Some 20%float) (Some 95%float) (Some 90%float) (Some 85%float)
                (Some 2%float) (Some 10%float) (Some 0.1%float) (Some 0.2%float)
                (Some (-0.4)%float) (Some 0.1%float).

(** close = ma20 = ma60 = ma120 = 100, nothing else defined. *)
Definition tie_row : Row :=
  indicator_row 100 None (Some 100%float) (Some 100%float) (Some 100%float)
                None None None None None None.

Definition worst_row : Row :=
  indicator_row 100 (Some 80%float) (Some 105%float) (Some 110%float) (Some 115%float)
                (Some 0.5%float) (Some 40%float) (Some (-0.1)%float) (Some (-0.2)%float)
                (Some 0%float) (Some 0.9%float).

(* ------------------------------------------------------------------ *)
(** ** Sample series *)

(** [n] consecutive days at a constant close of 100. *)
Definition flat_series (n : nat) : list Bar :=
  map (fun k => mkBar (Z.of_nat k) 100 100 100 100 1000) (seq 0 n).

(** Instances of the library routines used to run the engine on sample
    series: a relative strength index that is absent, rolling statistics
    that are undefined on every row, and the mean as a left-to-right sum. *)
Definition rsi_absent (xs : Pd.Series) (w : nat) : option Pd.Series := None.

Definition rolling_undefined (w : nat) (xs : Pd.Series) : Pd.Series :=
  map (fun _ => PrimFloat.nan) xs.

Definition mean_naive (xs : list float) : float :=
  (fold_left PrimFloat.add xs 0 / Py.of_int (Z.of_nat (List.length xs)))%float.

(* ------------------------------------------------------------------ *)
(** ** The order of doubles *)

(** A double that is not NaN is placed in the lexicographic order of
    triples of integers: sign class, then exponent, then mantissa (both
    negated on the negative side); the two zeros share one place. *)
Module FloatOrder.
#[local] Open Scope Z_scope.

Definition key (x : spec_float) : Z * Z * Z :=
  match x with
  | S754_nan => (0, 0, 0)
  | S754_zero _ => (0, 0, 0)
  | S754_infinity true => (-2, 0, 0)
  | S754_infinity false => (2, 0, 0)
  | S754_finite true m e => (-1, - e, Z.neg m)
  | S754_finite false m e => (1, e, Z.pos m)
  end.

Definition lex_compare (a b : Z * Z * Z) : comparison :=
  let '(a1, a2, a3) := a in
  let '(b1, b2, b3) := b in
  match a1 ?= b1 with
  | Eq => match a2 ?= b2 with
          | Eq => a3 ?= b3
          | c => c
          end
  | c => c
  end.

Definition lex_le (a b : Z * Z * Z) : Prop :=
  let '(a1, a2, a3) := a in
  let '(b1, b2, b3) := b in
  a1 < b1 \/ (a1 = b1 /\ (a2 < b2 \/ (a2 = b2 /\ a3 <= b3))).

Definition fkey (x : float) : Z * Z * Z := key (Prim2SF x).

End FloatOrder.

(* ------------------------------------------------------------------ *)
(** ** Range position *)

(** "Large" for a range position: outside the interval from 0 to 1 that it
    spans on a window of positive width. *)
Definition large (p : float) : bool := PrimFloat.ltb 1 (PrimFloat.abs p).

(** Row 19 of a flat 20-day series: the first row whose 20-day window is
    full, and its window has zero width. *)
Definition flat_row : Row :=
  nth 19 (compute_indicators rsi_absent rolling_undefined rolling_undefined (flat_series 20))
      (undefined_row 0).

(* ------------------------------------------------------------------ *)
(** ** The factors of the row scorer, in evaluation order *)

Definition factors : list (Row -> acc -> acc) :=
  [ factor_ma20; factor_ma60; factor_ma120; factor_alignment; factor_rsi;
    factor_mom20; factor_mom60; factor_vol_ratio; factor_vol20; factor_dd252;
    factor_pos20 ].

(** What one factor adds when it starts from nothing: its signed delta and
    the reasons it appends. *)
Definition contribution (f : Row -> acc -> acc) (row : Row) : acc := f row (0, []).

(** The deltas and the reasons a list of factors contributes. *)
Definition deltas (fs : list (Row -> acc -> acc)) (row : Row) : Z :=
  fold_right Z.add 0 (map (fun f => fst (contribution f row)) fs).

Definition reasons_from (fs : list (Row -> acc -> acc)) (row : Row) : list string :=
  List.concat (map (fun f => snd (contribution f row)) fs).

(** The state before the clamp when the factor at position [k] of the list
    contributes the delta [d] and the reasons [l], and every other factor
    what it contributes on the row. *)
Definition state_with (k : nat) (d : Z) (l : list string) (row : Row) : acc :=
  (50 + deltas (firstn k factors) row + d + deltas (skipn (S k) factors) row,
   (reasons_from (firstn k factors) row ++ l ++ reasons_from (skipn (S k) factors) row)%list).

(** The row with its rsi14 cell emptied. *)
Definition without_rsi14 (row : Row) : Row :=
  mkRow (bar row) (ret row) None (ma20 row) (ma60 row) (ma120 row)
        (vol_ma20 row) (vol_ratio row) (vol20_pct row) (mom20 row) (mom60 row)
        (high252 row) (dd252 row) (low20 row) (high20 row) (pos20 row).

(** A factor acts on the running state by adding its delta and appending
    its reasons, whatever the state; it appends at most one reason, its
    delta lies between [lo] and [hi] and is at most 10 in size, and is 0
    when no reason is appended. *)
Definition acts (f : Row -> acc -> acc) (lo hi : Z) : Prop :=
  forall row st,
    let d := fst (contribution f row) in
    let l := snd (contribution f row) in
    f row st = (fst st + d, (snd st ++ l)%list) /\
    lo <= d <= hi /\
    (List.length l <= 1)%nat /\
    - 10 * Z.of_nat (List.length l) <= d <= 10 * Z.of_nat (List.length l).

Definition feature_keys : list string :=
  [ "close"; "rsi14"; "ma20"; "ma60"; "ma120"; "vol_ratio"; "vol20_pct";
    "mom20"; "mom60"; "dd252"; "pos20" ].

(** The ten indicator columns the scorer reads, under their feature keys. *)
Definition indicator_columns : list (string * (Row -> Py.cell)) :=
  [ ("rsi14", rsi14); ("ma20", ma20); ("ma60", ma60); ("ma120", ma120);
    ("vol_ratio", vol_ratio); ("vol20_pct", vol20_pct); ("mom20", mom20);
    ("mom60", mom60); ("dd252", dd252); ("pos20", pos20) ].

(** Order of two records by date. *)
Definition date_le (a b : Bar) : Prop := (date a <= date b)%Z.
Definition date_lt (a b : Bar) : Prop := (date a < date b)%Z.

(* ------------------------------------------------------------------ *)
(** ** The trend factors *)


(* ------------------------------------------------------------------ *)
(** ** The analysis endpoint *)

(** A raised Python exception: the name of its type and its message. *)
Record PyError := mkPyError {
  err_type : string;
  err_message : string
}.

(** [f"{type(e).__name__}: {str(e)}"]. *)
Definition detail_of (e : PyError) : string :=
  err_type e ++ ": " ++ err_message e.

(** What a handler function ends in: the body it returns, or the
    [HTTPException] it raises.  What the framework does around the handler
    (parsing the query parameters before the call, rendering the body after
    it) lies outside. *)
Inductive Http (A : Type) :=
| Ok (body : A)
| HTTPException (status_code : Z) (detail : string).
Arguments Ok {A} body.
Arguments HTTPException {A} status_code detail.

Record AnalysisBody := mkAnalysisBody {
  body_ticker : string;
  body_rating : string;
  body_score : Z;
  body_comment : string;
  body_features : list (string * option float)
}.

Section Analysis.

Variable ta_rsi : Pd.Series -> nat -> option Pd.Series.
Variable rolling_mean : nat -> Pd.Series -> Pd.Series.
Variable rolling_std : nat -> Pd.Series -> Pd.Series.

(** The collaborators of the handler, each ending in a value or an
    exception: [fetch_ohlcv(ticker, years)] of the data provider and
    [make_ai_comment_korean(ticker, rating, score, features, reasons)]. *)
Variable fetch_ohlcv : string -> Z -> PyError + list Bar.
Variable make_ai_comment_korean :
  string -> string -> Z -> list (string * option float) -> list string -> PyError + string.

Definition analysis (ticker : string) (ai : Z) : Http AnalysisBody :=
  match fetch_ohlcv ticker 1 with
  | inl e => HTTPException 400 (detail_of e)
  | inr df =>
      if (List.length df <? 60)%nat then
        HTTPException 400
          (detail_of (mkPyError "ValueError" "가격 데이터가 비어있거나 너무 적습니다."))
      else
        let df := compute_indicators ta_rsi rolling_mean rolling_std df in
        match rule_result_from_df df with
        | None =>
            HTTPException 400
              (detail_of (mkPyError "IndexError" "single positional indexer is out-of-bounds"))
        | Some rr =>
            let comment :=
              if (ai =? 1)%Z then
                match make_ai_comment_korean ticker (rr_rating rr) (rr_score rr)
                                             (rr_features rr) (rr_reasons rr) with
                | inr c => c
                | inl _ => rr_comment_rule rr
                end
              else rr_comment_rule rr in
            Ok (mkAnalysisBody ticker (rr_rating rr) (rr_score rr) comment (rr_features rr))
        end
  end.

End Analysis.

(** Sample collaborators: a provider that serves a flat series of [n]
    days, and a comment service without its API key. *)
Definition fetch_flat (n : nat) (ticker : string) (years : Z) : PyError + list Bar :=
  inr (flat_series n).

Definition ai_without_key (ticker rating : string) (score : Z)
           (features : list (string * option float)) (reasons : list string)
  : PyError + string :=
  inl (mkPyError "RuntimeError" "OPENAI_API_KEY가 설정되지 않았습니다.").

(* ------------------------------------------------------------------ *)
(** ** The dashboard endpoint *)





Section Dashboard.

Variable ta_rsi : Pd.Series -> nat -> option Pd.Series.
Variable rolling_mean : nat -> Pd.Series -> Pd.Series.
Variable rolling_std : nat -> Pd.Series -> Pd.Series.
Variable fetch_ohlcv : string -> Z -> PyError + list Bar.
Variable make_ai_comment_korean :
  string -> string -> Z -> list (string * option float) -> list string -> PyError + string.

(** [datetime.now().isoformat()] as read while the [k]-th item is handled. *)
Variable clock : nat -> string.



End Dashboard.

(* ------------------------------------------------------------------ *)
(** * Properties *)

(** ** Comparison of doubles *)

Module FloatFacts.

Lemma SFcompare_swap (a b : spec_float) :
  SFcompare b a = option_map CompOpp (SFcompare a b).
Proof.
  destruct a as [sa| sa| |sa ma ea], b as [sb| sb| |sb mb eb]; simpl;
    try reflexivity;
    try (destruct sa; reflexivity);
    try (destruct sb; reflexivity);
    try (destruct sa, sb; reflexivity).
  destruct sa, sb; simpl; try reflexivity;
    rewrite (Z.compare_antisym ea eb);
    destruct (ea ?= eb)%Z; simpl; try reflexivity;
    rewrite (Pos.compare_cont_antisym ma mb Eq); simpl;
    destruct (Pos.compare_cont Eq ma mb); reflexivity.
Qed.

(** [a == b] excludes [a < b] and [b < a]. *)
Lemma eqb_not_ltb (a b : float) :
  PrimFloat.eqb a b = true ->
  PrimFloat.ltb a b = false /\ PrimFloat.ltb b a = false.
Proof.
  rewrite FloatAxioms.eqb_spec, !FloatAxioms.ltb_spec. unfold SFeqb, SFltb.
  rewrite (SFcompare_swap (Prim2SF a) (Prim2SF b)).
  destruct (SFcompare (Prim2SF a) (Prim2SF b)) as [[ | | ]|]; simpl;
    intro H; try discriminate H; split; reflexivity.
Qed.

Lemma Prim2SF_30 : Prim2SF 30 = S754_finite false 8444249301319680 (-48).
Proof. vm_compute. reflexivity. Qed.

Lemma Prim2SF_70 : Prim2SF 70 = S754_finite false 4925812092436480 (-46).
Proof. vm_compute. reflexivity. Qed.

(** No double is below 30 and above 70. *)
Lemma below_30_not_above_70 (r : float) :
  PrimFloat.ltb r 30 = true -> PrimFloat.ltb 70 r = false.
Proof.
  rewrite !FloatAxioms.ltb_spec, Prim2SF_30, Prim2SF_70.
  unfold SFltb, SFcompare.
  destruct (Prim2SF r) as [s| s| |s m e];
    try congruence; try (destruct s; congruence).
  destruct s; try congruence.
  destruct (Z.compare_spec e (-48)), (Z.compare_spec (-46) e);
    try congruence; try lia.
Qed.

Lemma eqb_not_nan (a b : float) :
  PrimFloat.eqb a b = true -> PrimFloat.is_nan a = false /\ PrimFloat.is_nan b = false.
Proof.
  unfold PrimFloat.is_nan. rewrite !FloatAxioms.eqb_spec. unfold SFeqb.
  destruct (Prim2SF a) as [sa| sa| |sa ma ea], (Prim2SF b) as [sb| sb| |sb mb eb];
    simpl; try discriminate; intros _;
    try (destruct sa); try (destruct sb); simpl;
    rewrite ?Z.compare_refl, ?Pos.compare_cont_refl; simpl; auto.
Qed.

End FloatFacts.

(* ------------------------------------------------------------------ *)
(** ** Rating mapper *)

Lemma label_inj (r1 r2 : Rating) : label r1 = label r2 -> r1 = r2.
Proof.
  destruct r1, r2; intro H; try reflexivity; vm_compute in H; discriminate H.
Qed.

Lemma level_label (r : Rating) : level (label r) = rank r.
Proof. destruct r; vm_compute; reflexivity. Qed.

(** The rating of a score, read off the thresholds. *)
Lemma score_to_rating_cases (s : Z) :
  (80 <= s /\ score_to_rating s = label StrongBuy) \/
  (60 <= s < 80 /\ score_to_rating s = label Buy) \/
  (40 <= s < 60 /\ score_to_rating s = label Neutral) \/
  (20 <= s < 40 /\ score_to_rating s = label Sell) \/
  (s < 20 /\ score_to_rating s = label StrongSell).
Proof.
  unfold score_to_rating.
  destruct (Z.geb_spec s 80); [left; split; [lia | reflexivity]|].
  destruct (Z.geb_spec s 60); [right; left; split; [lia | reflexivity]|].
  destruct (Z.geb_spec s 40); [right; right; left; split; [lia | reflexivity]|].
  destruct (Z.geb_spec s 20); [right; right; right; left; split; [lia | reflexivity]|].
  right; right; right; right; split; [lia | reflexivity].
Qed.

(** C3: the rating mapper is total, its bins have the inclusive lower
    bounds 80, 60, 40 and 20, and a higher score never gets a lower rating in
    the order Strong Sell < Sell < Neutral < Buy < Strong Buy. *)
Theorem score_to_rating_total_thresholds_monotone :
  (forall s, exists r, score_to_rating s = label r) /\
  (forall s,
      (score_to_rating s = label StrongBuy <-> 80 <= s) /\
      (score_to_rating s = label Buy <-> 60 <= s < 80) /\
      (score_to_rating s = label Neutral <-> 40 <= s < 60) /\
      (score_to_rating s = label Sell <-> 20 <= s < 40) /\
      (score_to_rating s = label StrongSell <-> s < 20)) /\
  (forall s1 s2, s1 > s2 ->
                 (level (score_to_rating s2) <= level (score_to_rating s1))%nat).
Proof.
  split; [|split].
  - intro s.
    destruct (score_to_rating_cases s) as [[_ H]|[[_ H]|[[_ H]|[[_ H]|[_ H]]]]];
      eexists; exact H.
  - intro s.
    destruct (score_to_rating_cases s) as [[B H]|[[B H]|[[B H]|[[B H]|[B H]]]]];
      rewrite H;
      repeat match goal with
             | |- _ /\ _ => split
             | |- _ <-> _ => split
             end; intro E;
        try reflexivity; try lia;
        try (apply label_inj in E; discriminate E).
  - intros s1 s2 Hgt.
    destruct (score_to_rating_cases s1) as [[B1 H1]|[[B1 H1]|[[B1 H1]|[[B1 H1]|[B1 H1]]]]];
      destruct (score_to_rating_cases s2) as [[B2 H2]|[[B2 H2]|[[B2 H2]|[[B2 H2]|[B2 H2]]]]];
      rewrite H1, H2, !level_label; simpl; lia.
Qed.

Lemma score_to_rating_total_thresholds_monotone_witness :
  (level (score_to_rating 59) <= level (score_to_rating 60))%nat.
Proof.
  apply (proj2 (proj2 score_to_rating_total_thresholds_monotone) 60 59).
  reflexivity.
Defined.

(* ------------------------------------------------------------------ *)
(** ** Row scorer *)

Lemma score_of_clamp (row : Row) :
  score_of row = Z.max 0 (Z.min 100 (fst (score_state row))).
Proof. reflexivity. Qed.

Lemma score_of_bounds (row : Row) : 0 <= score_of row <= 100.
Proof. rewrite score_of_clamp. lia. Qed.

(** C1: whatever the row holds, the score returned is the running sum
    clamped by [max(0, min(100, s))], hence an integer from 0 to 100. *)
Theorem score_clamped (row : Row) :
  0 <= score_of row <= 100 /\
  score_of row = Z.max 0 (Z.min 100 (fst (score_state row))).
Proof.
  split; [apply score_of_bounds | apply score_of_clamp].
Qed.

(** The clamp is not idle: the running sum reaches 122 and -17. *)
Example best_row_clamped : fst (score_state best_row) = 122 /\ score_of best_row = 100.
Proof. vm_compute. split; reflexivity. Qed.

Example worst_row_clamped : fst (score_state worst_row) = -17 /\ score_of worst_row = 0.
Proof. vm_compute. split; reflexivity. Qed.

(** C2, as the scenario states it, fails: on that row the score is not 82
    and the rating is not Strong Buy. *)
Lemma scenario1_not_82 :
  ~ (score_of scenario1 = 82 /\ score_to_rating (score_of scenario1) = label StrongBuy).
Proof.
  intros [H _]. vm_compute in H. discriminate H.
Qed.

(** C2, amended: on the row close=100, ma20=95, ma60=90, ma120=85,
    rsi14=50, vol_ratio=1.0, vol20_pct=20, mom20=0, mom60=0, dd252=0,
    pos20=0.5 the scorer returns 79: base 50, +8, +10, +6 above the three
    averages, +8 for the bullish alignment, +0 for the neutral RSI, and -3
    because dd252 = 0 >= -0.05 lies near the 52-week high; 79 maps to Buy. *)
Theorem scenario1_scores_79 :
  score_of scenario1 = 79 /\
  reasons_of scenario1 =
    [ "20일선 위"; "60일선 위"; "120일선 위"; "이평 정배열(상승 추세 정렬)";
      "RSI 50.0(중립)"; "52주 고점 근처(추격 부담)" ] /\
  score_to_rating (score_of scenario1) = label Buy.
Proof. vm_compute. repeat split; reflexivity. Qed.

(** Away from the high (dd252 = -0.1) the same row does score 82. *)
Example scenario1_off_high_scores_82 :
  score_of scenario1_off_high = 82 /\
  score_to_rating (score_of scenario1_off_high) = label StrongBuy.
Proof. vm_compute. split; reflexivity. Qed.

(** C6: a row whose ten indicators are all undefined keeps the base score 50
    with no reason, and 50 is rated Neutral. *)
Theorem undefined_row_scores_50 (row : Row) :
  Py.notna (rsi14 row) = false ->
  Py.notna (ma20 row) = false ->
  Py.notna (ma60 row) = false ->
  Py.notna (ma120 row) = false ->
  Py.notna (vol_ratio row) = false ->
  Py.notna (vol20_pct row) = false ->
  Py.notna (mom20 row) = false ->
  Py.notna (mom60 row) = false ->
  Py.notna (dd252 row) = false ->
  Py.notna (pos20 row) = false ->
  score_of row = 50 /\ reasons_of row = [] /\
  score_to_rating (score_of row) = label Neutral.
Proof.
  intros Hrsi H20 H60 H120 Hvr Hv20 Hm20 Hm60 Hdd Hp.
  assert (Hst : score_state row = (50, [])).
  { unfold score_state. cbv zeta.
    unfold factor_ma20; rewrite H20.
    unfold factor_ma60; rewrite H60.
    unfold factor_ma120; rewrite H120.
    unfold factor_alignment; rewrite H20; cbv beta iota delta [andb].
    unfold factor_rsi; rewrite Hrsi.
    unfold factor_mom20; rewrite Hm20.
    unfold factor_mom60; rewrite Hm60.
    unfold factor_vol_ratio; rewrite Hvr.
    unfold factor_vol20; rewrite Hv20.
    unfold factor_dd252; rewrite Hdd.
    unfold factor_pos20; rewrite Hp.
    reflexivity. }
  unfold score_of, reasons_of, _score_from_row. rewrite Hst.
  repeat split; reflexivity.
Qed.

Lemma undefined_row_scores_50_witness :
  (score_of (undefined_row 100) = 50 /\ reasons_of (undefined_row 100) = [] /\
   score_to_rating (score_of (undefined_row 100)) = label Neutral) /\
  (score_of (nan_row 100) = 50 /\ reasons_of (nan_row 100) = [] /\
   score_to_rating (score_of (nan_row 100)) = label Neutral).
Proof.
  split.
  - apply (undefined_row_scores_50 (undefined_row 100)); reflexivity.
  - apply (undefined_row_scores_50 (nan_row 100)); reflexivity.
Defined.

(** The RSI block on an arbitrary state: with rsi14 defined it adds [d] and
    appends one reason, where [d] is 10, -10 or 0 as rsi14 lies below 30,
    above 70 or neither. *)
Lemma factor_rsi_step (row : Row) :
  Py.notna (rsi14 row) = true ->
  let r := Py.float_ (rsi14 row) in
  exists (d : Z) (reason : string),
    (forall st, factor_rsi row st = (fst st + d, (snd st ++ [reason])%list)) /\
    (d = 10 <-> Py.lt r 30 = true) /\
    (d = -10 <-> Py.gt r 70 = true) /\
    (d = 0 <-> Py.lt r 30 = false /\ Py.gt r 70 = false).
Proof.
  intros Hdef r. unfold factor_rsi. rewrite Hdef. fold r.
  destruct (Py.lt r 30) eqn:Hlt.
  - assert (Hgt : Py.gt r 70 = false)
      by (apply FloatFacts.below_30_not_above_70; exact Hlt).
    rewrite Hgt.
    exists 10, ("RSI " ++ Py.format_fixed 1 r ++ "(과매도)").
    split; [reflexivity|].
    repeat split; intros; try reflexivity; try discriminate; try lia;
      match goal with H : _ /\ _ |- _ => destruct H; discriminate end.
  - destruct (Py.gt r 70) eqn:Hgt.
    + exists (-10), ("RSI " ++ Py.format_fixed 1 r ++ "(과매수)").
      split; [reflexivity|].
      repeat split; intros; try reflexivity; try discriminate; try lia;
        match goal with H : _ /\ _ |- _ => destruct H; discriminate end.
    + exists 0, ("RSI " ++ Py.format_fixed 1 r ++ "(중립)").
      split; [intro st; unfold append; simpl; rewrite Z.add_0_r; reflexivity|].
      repeat split; intros; try reflexivity; try discriminate; try lia.
Qed.

(** The three moving-average blocks on an arbitrary state, at a tie. *)
Lemma factor_ma_tie_step (row : Row) (st : acc) :
  (Py.notna (ma20 row) = true ->
   PrimFloat.eqb (close (bar row)) (Py.float_ (ma20 row)) = true ->
   factor_ma20 row st = (fst st - 8, (snd st ++ ["20일선 아래"])%list)) /\
  (Py.notna (ma60 row) = true ->
   PrimFloat.eqb (close (bar row)) (Py.float_ (ma60 row)) = true ->
   factor_ma60 row st = (fst st - 10, (snd st ++ ["60일선 아래"])%list)) /\
  (Py.notna (ma120 row) = true ->
   PrimFloat.eqb (close (bar row)) (Py.float_ (ma120 row)) = true ->
   factor_ma120 row st = (fst st - 6, (snd st ++ ["120일선 아래"])%list)).
Proof.
  unfold factor_ma20, factor_ma60, factor_ma120, above, Py.gt.
  repeat split; intros Hdef Heq; rewrite Hdef;
    destruct (FloatFacts.eqb_not_ltb _ _ Heq) as [_ Hnot];
    rewrite Hnot; reflexivity.
Qed.

(** On the whole scorer: three ties cost 8 + 10 + 6 and leave 26. *)
Example tie_row_scores_26 :
  score_of tie_row = 26 /\
  reasons_of tie_row = ["20일선 아래"; "60일선 아래"; "120일선 아래"].
Proof. vm_compute. split; reflexivity. Qed.

(* ------------------------------------------------------------------ *)
(** ** Score bins of the backtest *)

Lemma range_In (a b s : Z) : a <= s < b -> In s (range a b).
Proof.
  intro H. unfold range. apply in_map_iff.
  exists (Z.to_nat (s - a)). split; [lia|].
  apply in_seq. lia.
Qed.

Lemma bins_agree_0_100 : forallb bins_agree (range 0 101) = true.
Proof. vm_compute. reflexivity. Qed.

Lemma bin_agrees_In (s : Z) (p : Z * Z * string * Rating) :
  0 <= s <= 100 -> In p (combine bins all_ratings) -> bin_agrees s p = true.
Proof.
  intros Hs Hp.
  assert (H : bins_agree s = true).
  { apply (proj1 (forallb_forall _ _) bins_agree_0_100). apply range_In. lia. }
  exact (proj1 (forallb_forall _ _) H p Hp).
Qed.

Lemma in_bin_spec (s lo hi : Z) (name : string) (r : Rating) :
  0 <= s <= 100 -> In (lo, hi, name, r) (combine bins all_ratings) ->
  (in_bin lo hi (Py.of_int s) = true <-> lo <= s <= hi) /\
  (in_bin lo hi (Py.of_int s) = true <-> score_to_rating s = label r).
Proof.
  intros Hs Hp. pose proof (bin_agrees_In s _ Hs Hp) as H.
  unfold bin_agrees in H. apply andb_prop in H. destruct H as [H1 H2].
  apply Bool.eqb_prop in H1. apply Bool.eqb_prop in H2.
  split.
  - rewrite H1, Bool.andb_true_iff, !Z.leb_le. tauto.
  - rewrite H2. apply String.eqb_eq.
Qed.

Lemma hits_one (s : Z) :
  0 <= s <= 100 -> List.length (filter id (hits (Py.of_int s))) = 1%nat.
Proof.
  intro Hs.
  assert (E : forall lo hi name r, In (lo, hi, name, r) (combine bins all_ratings) ->
              in_bin lo hi (Py.of_int s) = String.eqb (score_to_rating s) (label r)).
  { intros lo hi name r Hp. pose proof (bin_agrees_In s _ Hs Hp) as H.
    unfold bin_agrees in H. apply andb_prop in H. destruct H as [_ H].
    apply Bool.eqb_prop in H. exact H. }
  unfold hits, bins. cbn [map].
  rewrite (E 80 100 _ StrongBuy), (E 60 79 _ Buy), (E 40 59 _ Neutral),
    (E 20 39 _ Sell), (E 0 19 _ StrongSell)
    by (cbn; tauto).
  destruct (score_to_rating_cases s) as [[_ H]|[[_ H]|[[_ H]|[[_ H]|[_ H]]]]];
    rewrite H; vm_compute; reflexivity.
Qed.

(* ------------------------------------------------------------------ *)
(** ** Backtest: the data guard *)

Lemma length_insert_by_date (b : Bar) (l : list Bar) :
  List.length (insert_by_date b l) = S (List.length l).
Proof.
  induction l as [|x l IH]; [reflexivity|].
  cbn [insert_by_date]. destruct (date b <=? date x)%Z; cbn [List.length]; [|rewrite IH]; reflexivity.
Qed.

Lemma length_sort_values (df : list Bar) :
  List.length (sort_values df) = List.length df.
Proof.
  induction df as [|b df IH]; [reflexivity|].
  unfold sort_values in *. cbn [fold_right List.length].
  rewrite length_insert_by_date, IH. reflexivity.
Qed.

Section EngineFacts.

Variable ta_rsi : Pd.Series -> nat -> option Pd.Series.
Variable rolling_mean : nat -> Pd.Series -> Pd.Series.
Variable rolling_std : nat -> Pd.Series -> Pd.Series.
Variable np_mean : list float -> float.

#[local] Abbreviation indicators := (compute_indicators ta_rsi rolling_mean rolling_std).
#[local] Abbreviation backtest := (backtest_score_bins ta_rsi rolling_mean rolling_std np_mean).

(** The indicator engine adds columns and keeps every row. *)
Lemma length_compute_indicators (df : list Bar) :
  List.length (indicators df) = List.length df.
Proof.
  unfold compute_indicators. cbv zeta.
  rewrite length_map, length_combine, length_seq, Nat.min_id.
  apply length_sort_values.
Qed.

(** The shift of the closes raises exactly on a frame with rows and an
    offset that does not fit the platform integer. *)
Lemma shift_closes_raises (df : list Bar) (k : Z) :
  Pd.shift_checked k (map (fun r => close (bar r)) (indicators df)) = None <->
  df <> [] /\ Pd.fits_intp k = false.
Proof.
  unfold Pd.shift_checked. rewrite length_map, length_compute_indicators.
  destruct (Z.eqb_spec k 0) as [->|Hk]; cbn [orb].
  - split; [discriminate|]. intros [_ H]. discriminate H.
  - destruct df as [|b df]; cbn [List.length Nat.eqb].
    + split; [discriminate|]. intros [H _]. contradiction.
    + destruct (Pd.fits_intp k); split; try discriminate.
      * intros [_ H]. discriminate H.
      * intros _. split; [discriminate | reflexivity].
      * reflexivity.
Qed.

Lemma shift_closes_returns (df : list Bar) (k : Z) :
  df = [] \/ Pd.fits_intp k = true ->
  exists shifted,
    Pd.shift_checked k (map (fun r => close (bar r)) (indicators df)) = Some shifted.
Proof.
  intro H.
  destruct (Pd.shift_checked k (map (fun r => close (bar r)) (indicators df)))
    as [shifted|] eqn:E; [exists shifted; reflexivity|].
  apply shift_closes_raises in E. destruct E as [Hne Hfit].
  destruct H as [H|H]; [contradiction | congruence].
Qed.

Lemma backtest_overflow (df : list Bar) (horizon : Z) :
  df <> [] -> Pd.fits_intp (- horizon) = false ->
  backtest df horizon = Raised OverflowError.
Proof.
  intros Hne Hfit. unfold backtest_score_bins. cbv zeta.
  rewrite (proj2 (shift_closes_raises df (- horizon)) (conj Hne Hfit)). reflexivity.
Qed.

Lemma backtest_guard_fails (df : list Bar) (horizon : Z) :
  df = [] \/ Pd.fits_intp (- horizon) = true ->
  Z.of_nat (List.length df) - horizon - 1 <= 260 ->
  backtest df horizon = Returned (Failure msg_insufficient).
Proof.
  intros Hs H. unfold backtest_score_bins. cbv zeta.
  destruct (shift_closes_returns df (- horizon) Hs) as [shifted E]. rewrite E.
  rewrite length_compute_indicators.
  destruct (Z.leb_spec (Z.of_nat (List.length df) - horizon - 1) 260); [reflexivity | lia].
Qed.

Lemma backtest_guard_passes (df : list Bar) (horizon : Z) (o : Outcome) :
  260 < Z.of_nat (List.length df) - horizon - 1 ->
  backtest df horizon = Returned o ->
  o = Failure msg_no_samples \/ ok o = true.
Proof.
  intro H. unfold backtest_score_bins. cbv zeta.
  destruct (Pd.shift_checked _ _) as [shifted|]; [|discriminate].
  rewrite length_compute_indicators.
  destruct (Z.leb_spec (Z.of_nat (List.length df) - horizon - 1) 260); [lia|].
  match goal with |- context [replay ?d ?f ?t ?r] => destruct (replay d f t r) as [[|p rows]|e] end;
    intro E; inversion E; subst; [left | right]; reflexivity.
Qed.

(** A call that returns has shifted the closes. *)
Lemma backtest_returned_shiftable (df : list Bar) (horizon : Z) (o : Outcome) :
  backtest df horizon = Returned o -> df = [] \/ Pd.fits_intp (- horizon) = true.
Proof.
  intro E. destruct df as [|b df]; [left; reflexivity|]. right.
  destruct (Pd.fits_intp (- horizon)) eqn:F; [reflexivity|].
  rewrite backtest_overflow in E; [discriminate E | discriminate | exact F].
Qed.

Lemma msg_distinct : msg_no_samples <> msg_insufficient.
Proof. intro H. vm_compute in H. discriminate H. Qed.

(** Every sample the replay collects carries a score of the row scorer. *)
Lemma replay_scores (df : list Row) (fwd : Pd.Series) (todo : list Z) :
  forall rows rows',
    Forall (fun p : Z * float => 0 <= fst p <= 100) rows ->
    replay df fwd todo rows = Returned rows' ->
    Forall (fun p : Z * float => 0 <= fst p <= 100) rows'.
Proof.
  induction todo as [|i todo IH]; intros rows rows' Hrows; cbn [replay].
  - intro E. inversion E. subst. exact Hrows.
  - destruct (nth_error df (Z.to_nat i)) as [row|]; [|discriminate].
    pose proof (score_of_bounds row) as Hs. unfold score_of in Hs.
    destruct (_score_from_row row) as [[score reasons] features].
    cbn [fst] in Hs.
    destruct (PrimFloat.is_nan (Pd.at_ fwd i)).
    + apply IH. exact Hrows.
    + apply IH. apply Forall_app. split; [exact Hrows|].
      constructor; [exact Hs | constructor].
Qed.

Lemma bin_n_count (scores rets : list float) (lo hi : Z) (name : string) :
  bin_n (bin_stat np_mean scores rets (lo, hi, name)) =
  List.length (filter id (map (in_bin lo hi) scores)).
Proof.
  unfold bin_stat.
  destruct (List.length (filter id (map (in_bin lo hi) scores)) =? 0)%nat eqn:E.
  - apply Nat.eqb_eq in E. rewrite E. reflexivity.
  - reflexivity.
Qed.

Lemma bin_counts_sum (scores rets : list float) :
  Forall (fun x => List.length (filter id (hits x)) = 1%nat) scores ->
  fold_right Nat.add 0%nat (map (fun b => bin_n (bin_stat np_mean scores rets b)) bins) =
  List.length scores.
Proof.
  unfold bins. cbn [map fold_right]. rewrite !bin_n_count.
  induction 1 as [|x xs Hx _ IH]; [reflexivity|].
  cbn [map filter List.length].
  unfold hits, bins in Hx. cbn [map] in Hx.
  destruct (in_bin 80 100 x), (in_bin 60 79 x), (in_bin 40 59 x),
    (in_bin 20 39 x), (in_bin 0 19 x);
    cbn [id filter List.length] in Hx |- *; try discriminate Hx; lia.
Qed.

(** In a report the five bin counts add up to the number of samples. *)
Lemma report_bins_cover (df : list Bar) (horizon h : Z) (overall : Overall)
      (out : list BinStat) :
  backtest df horizon = Returned (Report overall out h) ->
  fold_right Nat.add 0%nat (map bin_n out) = overall_n overall.
Proof.
  unfold backtest_score_bins. cbv zeta.
  destruct (Pd.shift_checked _ _) as [shifted|]; [|discriminate].
  destruct (_ <=? 260)%Z; [discriminate|].
  match goal with |- context [replay ?d ?f ?t ?r] =>
    destruct (replay d f t r) as [rows|e] eqn:Hrep end; [|discriminate].
  apply replay_scores in Hrep; [|constructor].
  destruct rows as [|p rows]; [discriminate|].
  match goal with
  | |- Returned (Report ?o ?b _) = _ -> _ =>
      intro E;
      assert (Ho : overall = o) by congruence;
      assert (Hb : out = b) by congruence
  end.
  rewrite Ho, Hb. clear E Ho Hb.
  cbn [overall_n]. rewrite map_map, bin_counts_sum, !length_map; [reflexivity|].
  apply Forall_map.
  eapply Forall_impl; [|exact Hrep].
  intros q Hq. apply hits_one. exact Hq.
Qed.

End EngineFacts.

(** C4: the five bins 80-100, 60-79, 40-59, 20-39, 0-19, each tested as
    [lo <= score <= hi] on the float array of scores, split the integer scores
    0..100 into disjoint classes that cover them: a score lies in exactly one
    bin, a bin holds the integers from [lo] to [hi], and it holds exactly the
    scores the rating mapper sends to the rating of the same rank.  So every
    sample of the backtest is counted in one bin, and the bin counts of a
    report add up to its number of samples. *)
Theorem bins_partition_scores
        (ta_rsi : Pd.Series -> nat -> option Pd.Series)
        (rolling_mean rolling_std : nat -> Pd.Series -> Pd.Series)
        (np_mean : list float -> float) :
  (forall s, 0 <= s <= 100 ->
     List.length (filter id (hits (Py.of_int s))) = 1%nat /\
     forall lo hi name r, In (lo, hi, name, r) (combine bins all_ratings) ->
       (in_bin lo hi (Py.of_int s) = true <-> lo <= s <= hi) /\
       (in_bin lo hi (Py.of_int s) = true <-> score_to_rating s = label r)) /\
  (forall row, List.length (filter id (hits (Py.of_int (score_of row)))) = 1%nat) /\
  (forall df horizon overall out h,
     backtest_score_bins ta_rsi rolling_mean rolling_std np_mean df horizon
     = Returned (Report overall out h) ->
     fold_right Nat.add 0%nat (map bin_n out) = overall_n overall).
Proof.
  split; [|split].
  - intros s Hs. split; [apply hits_one; exact Hs|].
    intros lo hi name r Hp. exact (in_bin_spec s lo hi name r Hs Hp).
  - intro row. apply hits_one. apply score_of_bounds.
  - intros df horizon overall out h. apply report_bins_cover.
Qed.

Lemma bins_partition_scores_witness :
  List.length (filter id (hits (Py.of_int 79))) = 1%nat /\
  (in_bin 60 79 (Py.of_int 79) = true <-> 60 <= 79 <= 79) /\
  (in_bin 60 79 (Py.of_int 79) = true <-> score_to_rating 79 = label Buy).
Proof.
  destruct (proj1 (bins_partition_scores rsi_absent rolling_undefined rolling_undefined
                                         mean_naive) 79) as [H1 H2]; [lia|].
  split; [exact H1|].
  apply (H2 60 79 "매수권(60-79)" Buy). cbn. tauto.
Defined.

(** C5: a series shorter than 260 + horizon + 1 rows makes the backtest
    return the insufficient-data failure, a value and not an exception,
    whenever the closes can be shifted by the horizon: the series is empty or
    - horizon fits a signed 64-bit integer.  So does every 10-row series at
    horizon 20. *)
Theorem short_series_fails
        (ta_rsi : Pd.Series -> nat -> option Pd.Series)
        (rolling_mean rolling_std : nat -> Pd.Series -> Pd.Series)
        (np_mean : list float -> float) :
  (forall df horizon,
     df = [] \/ Pd.fits_intp (- horizon) = true ->
     Z.of_nat (List.length df) < 260 + horizon + 1 ->
     backtest_score_bins ta_rsi rolling_mean rolling_std np_mean df horizon
     = Returned (Failure msg_insufficient)) /\
  (forall df,
     List.length df = 10%nat ->
     backtest_score_bins ta_rsi rolling_mean rolling_std np_mean df 20
     = Returned (Failure msg_insufficient)) /\
  ok (Failure msg_insufficient) = false.
Proof.
  split; [|split].
  - intros df horizon Hs H. apply backtest_guard_fails; [exact Hs | lia].
  - intros df H. apply backtest_guard_fails; [right; reflexivity | rewrite H; lia].
  - reflexivity.
Qed.

Lemma short_series_fails_witness :
  backtest_score_bins rsi_absent rolling_undefined rolling_undefined mean_naive
                      (flat_series 10) 20
  = Returned (Failure msg_insufficient).
Proof.
  apply (proj1 (short_series_fails rsi_absent rolling_undefined rolling_undefined
                                   mean_naive) (flat_series 10) 20).
  - right. reflexivity.
  - vm_compute. reflexivity.
Defined.

(** Ten rows at horizon 10^30: far shorter than 260 + horizon + 1, yet the
    shift of line 14, which runs before the length guard, raises
    OverflowError. *)
Lemma short_series_overflows :
  Z.of_nat (List.length (flat_series 10)) < 260 + 10 ^ 30 + 1 /\
  backtest_score_bins rsi_absent rolling_undefined rolling_undefined mean_naive
                      (flat_series 10) (10 ^ 30)
  = Raised OverflowError /\
  backtest_score_bins rsi_absent rolling_undefined rolling_undefined mean_naive
                      (flat_series 10) (10 ^ 30)
  <> Returned (Failure msg_insufficient).
Proof.
  assert (E : backtest_score_bins rsi_absent rolling_undefined rolling_undefined mean_naive
                                  (flat_series 10) (10 ^ 30)
              = Raised OverflowError) by (vm_compute; reflexivity).
  split; [vm_compute; reflexivity|].
  split; [exact E|]. rewrite E. discriminate.
Qed.

(** C10: among the calls that can shift the closes by the horizon (the series
    is empty or - horizon fits a signed 64-bit integer) the backtest returns
    the insufficient-data failure exactly when len - horizon - 1 <= 260, that
    is len <= 261 + horizon, and no other call returns it; a series of
    exactly 260 + horizon + 1 rows still fails, and a report needs at least
    262 + horizon rows. *)
Theorem guard_boundary
        (ta_rsi : Pd.Series -> nat -> option Pd.Series)
        (rolling_mean rolling_std : nat -> Pd.Series -> Pd.Series)
        (np_mean : list float -> float)
        (df : list Bar) (horizon : Z) :
  let len := Z.of_nat (List.length df) in
  let run := backtest_score_bins ta_rsi rolling_mean rolling_std np_mean df horizon in
  (run = Returned (Failure msg_insufficient) <->
   len - horizon - 1 <= 260 /\ (df = [] \/ Pd.fits_intp (- horizon) = true)) /\
  (len - horizon - 1 <= 260 <-> len <= 261 + horizon) /\
  (df = [] \/ Pd.fits_intp (- horizon) = true ->
   len = 260 + horizon + 1 -> run = Returned (Failure msg_insufficient)) /\
  (forall o, run = Returned o -> ok o = true -> 262 + horizon <= len).
Proof.
  intros len run. subst run.
  repeat match goal with |- _ /\ _ => split end.
  - split.
    + intro E.
      pose proof (backtest_returned_shiftable ta_rsi rolling_mean rolling_std np_mean
                                              df horizon _ E) as Hs.
      split; [|exact Hs].
      destruct (Z.le_gt_cases (len - horizon - 1) 260) as [H|H]; [exact H|].
      destruct (backtest_guard_passes ta_rsi rolling_mean rolling_std np_mean
                                      df horizon _ H E) as [F|F].
      * exfalso. apply msg_distinct. congruence.
      * discriminate F.
    + intros [H Hs]. apply backtest_guard_fails; [exact Hs | exact H].
  - subst len. lia.
  - intros Hs H. apply backtest_guard_fails; [exact Hs | fold len; lia].
  - intros o E Hok.
    pose proof (backtest_returned_shiftable ta_rsi rolling_mean rolling_std np_mean
                                            df horizon _ E) as Hs.
    destruct (Z.le_gt_cases (len - horizon - 1) 260) as [H|H]; [|lia].
    rewrite (backtest_guard_fails ta_rsi rolling_mean rolling_std np_mean df horizon Hs H) in E.
    assert (Ho : o = Failure msg_insufficient) by congruence.
    subst o. discriminate Hok.
Qed.

Lemma guard_boundary_witness :
  backtest_score_bins rsi_absent rolling_undefined rolling_undefined mean_naive
                      (flat_series 281) 20
  = Returned (Failure msg_insufficient).
Proof.
  apply (proj1 (proj2 (proj2 (guard_boundary rsi_absent rolling_undefined rolling_undefined
                                             mean_naive (flat_series 281) 20)))).
  - right. reflexivity.
  - vm_compute. reflexivity.
Defined.

(** 300 rows at horizon 2^63 + 1: len - horizon - 1 <= 260 holds, yet the
    call does not return the failure: the shift of line 14 raises
    OverflowError before the guard is reached. *)
Lemma guard_not_reached :
  Z.of_nat (List.length (flat_series 300)) - (2 ^ 63 + 1) - 1 <= 260 /\
  backtest_score_bins rsi_absent rolling_undefined rolling_undefined mean_naive
                      (flat_series 300) (2 ^ 63 + 1)
  = Raised OverflowError /\
  backtest_score_bins rsi_absent rolling_undefined rolling_undefined mean_naive
                      (flat_series 300) (2 ^ 63 + 1)
  <> Returned (Failure msg_insufficient).
Proof.
  assert (E : backtest_score_bins rsi_absent rolling_undefined rolling_undefined mean_naive
                                  (flat_series 300) (2 ^ 63 + 1)
              = Raised OverflowError).
  { apply backtest_overflow; [discriminate | reflexivity]. }
  split; [vm_compute; discriminate|].
  split; [exact E|]. rewrite E. discriminate.
Qed.

(* ------------------------------------------------------------------ *)
(** ** Order and arithmetic of doubles *)

Module OrderFacts.
Import FloatOrder.
#[local] Open Scope Z_scope.

Lemma SFcompare_key (a b : spec_float) :
  a <> S754_nan -> b <> S754_nan ->
  SFcompare a b = Some (lex_compare (key a) (key b)).
Proof.
  intros Ha Hb.
  destruct a as [sa| sa| |sa ma ea], b as [sb| sb| |sb mb eb];
    try congruence;
    try (destruct sa); try (destruct sb); try reflexivity.
  cbn [SFcompare key lex_compare]. rewrite Z.compare_refl.
  rewrite Z.compare_opp, (Z.compare_antisym ea eb).
  destruct (ea ?= eb); reflexivity.
Qed.

Lemma lex_compare_le (a b : Z * Z * Z) :
  lex_compare a b <> Gt <-> lex_le a b.
Proof.
  destruct a as [[a1 a2] a3], b as [[b1 b2] b3]. unfold lex_compare, lex_le.
  destruct (Z.compare_spec a1 b1), (Z.compare_spec a2 b2), (Z.compare_spec a3 b3);
    split; intro HH; try congruence; try lia.
Qed.

Lemma lex_compare_lt (a b : Z * Z * Z) :
  lex_compare a b = Lt <-> ~ lex_le b a.
Proof.
  destruct a as [[a1 a2] a3], b as [[b1 b2] b3]. unfold lex_compare, lex_le.
  destruct (Z.compare_spec a1 b1), (Z.compare_spec a2 b2), (Z.compare_spec a3 b3);
    split; intro HH; try congruence; try lia.
Qed.

Lemma lex_compare_eq (a b : Z * Z * Z) :
  lex_compare a b = Eq <-> a = b.
Proof.
  destruct a as [[a1 a2] a3], b as [[b1 b2] b3]. unfold lex_compare.
  destruct (Z.compare_spec a1 b1), (Z.compare_spec a2 b2), (Z.compare_spec a3 b3);
    split; intro HH; try congruence; try (injection HH; lia).
Qed.

Lemma lex_le_trans (a b c : Z * Z * Z) : lex_le a b -> lex_le b c -> lex_le a c.
Proof.
  destruct a as [[a1 a2] a3], b as [[b1 b2] b3], c as [[c1 c2] c3].
  unfold lex_le. lia.
Qed.

Lemma lex_le_antisym (a b : Z * Z * Z) : lex_le a b -> lex_le b a -> a = b.
Proof.
  destruct a as [[a1 a2] a3], b as [[b1 b2] b3].
  unfold lex_le. intros H1 H2.
  assert (a1 = b1 /\ a2 = b2 /\ a3 = b3) as (-> & -> & ->) by lia. reflexivity.
Qed.

Lemma lex_le_total (a b : Z * Z * Z) : lex_le a b \/ lex_le b a.
Proof.
  destruct a as [[a1 a2] a3], b as [[b1 b2] b3]. unfold lex_le. lia.
Qed.

Lemma lex_le_refl (a : Z * Z * Z) : lex_le a a.
Proof. destruct a as [[a1 a2] a3]. unfold lex_le. lia. Qed.

(** *** On primitive floats *)

Lemma is_nan_Prim2SF (x : float) :
  PrimFloat.is_nan x = false <-> Prim2SF x <> S754_nan.
Proof.
  unfold PrimFloat.is_nan. rewrite FloatAxioms.eqb_spec. unfold SFeqb.
  destruct (Prim2SF x) as [s| s| |s m e] eqn:E.
  - split; [congruence | reflexivity].
  - destruct s; split; try congruence; reflexivity.
  - split; [discriminate | congruence].
  - rewrite SFcompare_key by congruence.
    rewrite (proj2 (lex_compare_eq _ _) eq_refl). split; [congruence | reflexivity].
Qed.

Lemma ltb_key (x y : float) :
  PrimFloat.is_nan x = false -> PrimFloat.is_nan y = false ->
  (PrimFloat.ltb x y = true <-> ~ lex_le (fkey y) (fkey x)).
Proof.
  intros Hx Hy. apply is_nan_Prim2SF in Hx, Hy.
  rewrite FloatAxioms.ltb_spec. unfold SFltb, fkey.
  rewrite SFcompare_key by assumption.
  rewrite <- lex_compare_lt.
  destruct (lex_compare (key (Prim2SF x)) (key (Prim2SF y)));
    split; congruence.
Qed.

Lemma eqb_key (x y : float) :
  PrimFloat.is_nan x = false -> PrimFloat.is_nan y = false ->
  (PrimFloat.eqb x y = true <-> fkey x = fkey y).
Proof.
  intros Hx Hy. apply is_nan_Prim2SF in Hx, Hy.
  rewrite FloatAxioms.eqb_spec. unfold SFeqb, fkey.
  rewrite SFcompare_key by assumption.
  rewrite <- lex_compare_eq.
  destruct (lex_compare (key (Prim2SF x)) (key (Prim2SF y)));
    split; congruence.
Qed.

End OrderFacts.

Module ArithFacts.
#[local] Open Scope Z_scope.

Lemma Prim2SF_infinity : Prim2SF PrimFloat.infinity = S754_infinity false.
Proof. vm_compute. reflexivity. Qed.

Lemma Prim2SF_eps :
  Prim2SF 1e-9 = S754_finite false 4835703278458517 (-82).
Proof. vm_compute. reflexivity. Qed.

Lemma Prim2SF_zero : Prim2SF 0 = S754_zero false.
Proof. vm_compute. reflexivity. Qed.

Lemma finite_not_infinity (x : float) (s : bool) :
  PrimFloat.is_finite x = true -> Prim2SF x <> S754_infinity s.
Proof.
  unfold PrimFloat.is_finite, PrimFloat.is_infinity.
  rewrite FloatAxioms.eqb_spec, FloatAxioms.abs_spec, Prim2SF_infinity.
  intros H E. rewrite E in H. cbn in H.
  rewrite Bool.orb_true_r in H. discriminate H.
Qed.

(** The difference of two equal finite doubles is a zero. *)
Lemma sub_equal_is_zero (a b : float) :
  PrimFloat.eqb a b = true -> PrimFloat.is_finite b = true ->
  exists s, Prim2SF (a - b) = S754_zero s.
Proof.
  intros Heq Hfin.
  pose proof (fun s => finite_not_infinity b s Hfin) as Hb.
  rewrite FloatAxioms.eqb_spec in Heq. rewrite FloatAxioms.sub_spec.
  unfold SFeqb in Heq. unfold SF64sub.
  destruct (Prim2SF a) as [sa| sa| |sa ma ea], (Prim2SF b) as [sb| sb| |sb mb eb];
    try discriminate Heq;
    try (exfalso; eapply Hb; reflexivity);
    try (destruct sa; discriminate Heq);
    try (destruct sb; discriminate Heq).
  - destruct sa, sb; eexists; reflexivity.
  - assert (E : sa = sb /\ ea = eb /\ ma = mb).
    { cbn [SFcompare] in Heq.
      change (Pos.compare_cont Eq ma mb) with (Pos.compare ma mb) in Heq.
      destruct sa, sb; try discriminate Heq;
        destruct (Z.compare_spec ea eb); try discriminate Heq;
        destruct (Pos.compare_spec ma mb);
        try discriminate Heq; auto. }
    destruct E as (-> & -> & ->).
    exists false. unfold SFsub. cbv zeta. rewrite Z.sub_diag. reflexivity.
Qed.

(** A zero plus epsilon is epsilon. *)
Lemma zero_add_eps (z : float) (s : bool) :
  Prim2SF z = S754_zero s -> (z + 1e-9)%float = 1e-9%float.
Proof.
  intro Hz. apply Prim2SF_inj.
  rewrite FloatAxioms.add_spec, Hz, Prim2SF_eps. reflexivity.
Qed.

(** A zero over epsilon is a zero. *)
Lemma zero_div_eps (z : float) (s : bool) :
  Prim2SF z = S754_zero s -> Prim2SF (z / 1e-9) = S754_zero s.
Proof.
  intro Hz. rewrite FloatAxioms.div_spec, Hz, Prim2SF_eps.
  cbn [SF64div SFdiv]. destruct s; reflexivity.
Qed.

Lemma zero_eqb_0 (z : float) (s : bool) :
  Prim2SF z = S754_zero s -> PrimFloat.eqb z 0 = true.
Proof.
  intro Hz. rewrite FloatAxioms.eqb_spec, Hz, Prim2SF_zero. reflexivity.
Qed.

Lemma Prim2SF_one : Prim2SF 1 = S754_finite false 4503599627370496 (-52).
Proof. vm_compute. reflexivity. Qed.

(** A zero is finite and not large. *)
Lemma zero_finite_small (z : float) (s : bool) :
  Prim2SF z = S754_zero s -> PrimFloat.is_finite z = true /\ large z = false.
Proof.
  intro Hz. unfold PrimFloat.is_finite, PrimFloat.is_infinity, PrimFloat.is_nan, large.
  rewrite !FloatAxioms.eqb_spec, FloatAxioms.ltb_spec, FloatAxioms.abs_spec, Hz,
    Prim2SF_infinity, Prim2SF_one.
  destruct s; split; reflexivity.
Qed.

End ArithFacts.

(* ------------------------------------------------------------------ *)
(** ** Columns and rolling windows *)

Module SeriesFacts.
Import FloatOrder OrderFacts.
#[local] Open Scope nat_scope.

Lemma nth_map_seq (g : nat -> float) (n i : nat) (d : float) :
  i < n -> nth i (map g (seq 0 n)) d = g i.
Proof.
  intro H.
  rewrite (nth_indep _ d (g 0)) by (rewrite length_map, length_seq; exact H).
  rewrite map_nth, seq_nth by exact H. reflexivity.
Qed.

Lemma at_of_nat (xs : Pd.Series) (i : nat) :
  Pd.at_ xs (Z.of_nat i) = nth i xs PrimFloat.nan.
Proof.
  unfold Pd.at_. destruct (Z.ltb_spec (Z.of_nat i) 0); [lia|].
  rewrite Nat2Z.id. reflexivity.
Qed.

Lemma length_map2 (f : float -> float -> float) (xs ys : Pd.Series) :
  List.length (Pd.map2 f xs ys) = List.length xs.
Proof.
  unfold Pd.map2, Pd.positions. rewrite !length_map, length_seq. reflexivity.
Qed.

Lemma nth_map2 (f : float -> float -> float) (xs ys : Pd.Series) (i : nat) :
  i < List.length xs ->
  nth i (Pd.map2 f xs ys) PrimFloat.nan
  = f (nth i xs PrimFloat.nan) (nth i ys PrimFloat.nan).
Proof.
  intro H. unfold Pd.map2, Pd.positions. rewrite map_map.
  rewrite nth_map_seq by exact H. rewrite !at_of_nat. reflexivity.
Qed.

Lemma nth_add_scalar (xs : Pd.Series) (c : float) (i : nat) :
  i < List.length xs ->
  nth i (Pd.add_scalar xs c) PrimFloat.nan = (nth i xs PrimFloat.nan + c)%float.
Proof.
  intro H. unfold Pd.add_scalar.
  rewrite (nth_indep _ PrimFloat.nan (PrimFloat.nan + c)%float)
    by (rewrite length_map; exact H).
  apply (map_nth (fun x => (x + c)%float)).
Qed.

Lemma length_rolling (op : float -> float -> float) (w : nat) (xs : Pd.Series) :
  List.length (Pd.rolling op w xs) = List.length xs.
Proof. unfold Pd.rolling. rewrite length_map, length_seq. reflexivity. Qed.

(** A defined entry of a rolling reduction is the reduction of a full
    window without NaN. *)
Lemma rolling_defined (op : float -> float -> float) (w : nat) (xs : Pd.Series) (i : nat) :
  i < List.length xs ->
  PrimFloat.is_nan (nth i (Pd.rolling op w xs) PrimFloat.nan) = false ->
  exists win,
    Pd.window w xs i = Some win /\
    existsb PrimFloat.is_nan win = false /\
    nth i (Pd.rolling op w xs) PrimFloat.nan = Pd.reduce op win.
Proof.
  intros Hi. unfold Pd.rolling. rewrite nth_map_seq by exact Hi.
  destruct (Pd.window w xs i) as [win|]; [|intro H; vm_compute in H; discriminate H].
  destruct (existsb PrimFloat.is_nan win) eqn:E;
    [intro H; vm_compute in H; discriminate H|].
  intros _. exists win. repeat split; assumption || reflexivity.
Qed.

(** The entry at position [i] is the last observation of the window that
    ends at [i]. *)
Lemma window_last (w : nat) (xs : Pd.Series) (i : nat) (win : list float) :
  0 < w -> i < List.length xs ->
  Pd.window w xs i = Some win -> In (nth i xs PrimFloat.nan) win.
Proof.
  intros Hw Hi. unfold Pd.window.
  destruct (Nat.ltb_spec (S i) w) as [|Hle]; [discriminate|].
  intro E.
  assert (Hwin : win = firstn w (skipn (S i - w) xs)) by congruence.
  rewrite Hwin. clear E Hwin.
  apply (nth_error_In _ (w - 1)).
  rewrite nth_error_firstn.
  destruct (Nat.ltb_spec (w - 1) w); [|lia].
  rewrite nth_error_skipn.
  replace (S i - w + (w - 1)) with i by lia.
  apply nth_error_nth'. exact Hi.
Qed.

Lemma no_nan_Forall (win : list float) :
  existsb PrimFloat.is_nan win = false ->
  Forall (fun x => PrimFloat.is_nan x = false) win.
Proof.
  induction win as [|x win IH]; cbn [existsb]; intro H; constructor.
  - destruct (PrimFloat.is_nan x); [discriminate H | reflexivity].
  - apply IH. destruct (PrimFloat.is_nan x); [discriminate H | exact H].
Qed.

Lemma lex_le_dec (a b : Z * Z * Z) : lex_le a b \/ ~ lex_le a b.
Proof.
  destruct a as [[a1 a2] a3], b as [[b1 b2] b3]. unfold lex_le. lia.
Qed.

(** The running minimum is NaN-free and below everything it has seen. *)
Lemma fold_fmin_bound (rest : list float) :
  forall acc,
    PrimFloat.is_nan acc = false ->
    Forall (fun x => PrimFloat.is_nan x = false) rest ->
    let m := fold_left Pd.fmin rest acc in
    PrimFloat.is_nan m = false /\
    lex_le (fkey m) (fkey acc) /\
    Forall (fun x => lex_le (fkey m) (fkey x)) rest.
Proof.
  induction rest as [|x rest IH]; intros acc Hacc Hrest; cbn [fold_left].
  - split; [exact Hacc | split; [apply lex_le_refl | constructor]].
  - inversion Hrest as [|? ? Hx Hrest']; subst.
    assert (Hstep : PrimFloat.is_nan (Pd.fmin acc x) = false /\
                    lex_le (fkey (Pd.fmin acc x)) (fkey acc) /\
                    lex_le (fkey (Pd.fmin acc x)) (fkey x)).
    { unfold Pd.fmin. destruct (PrimFloat.ltb x acc) eqn:E.
      - split; [exact Hx|]. split; [|apply lex_le_refl].
        apply (ltb_key x acc Hx Hacc) in E.
        destruct (lex_le_total (fkey x) (fkey acc)); tauto.
      - split; [exact Hacc|]. split; [apply lex_le_refl|].
        destruct (lex_le_dec (fkey acc) (fkey x)) as [H|H]; [exact H|].
        apply (ltb_key x acc Hx Hacc) in H. congruence. }
    destruct Hstep as (Hn & Ha & Hb).
    destruct (IH (Pd.fmin acc x) Hn Hrest') as (Hm & Hle & Hall).
    split; [exact Hm|]. split.
    + eapply lex_le_trans; eassumption.
    + constructor; [eapply lex_le_trans; eassumption | exact Hall].
Qed.

(** The running maximum is NaN-free and above everything it has seen. *)
Lemma fold_fmax_bound (rest : list float) :
  forall acc,
    PrimFloat.is_nan acc = false ->
    Forall (fun x => PrimFloat.is_nan x = false) rest ->
    let m := fold_left Pd.fmax rest acc in
    PrimFloat.is_nan m = false /\
    lex_le (fkey acc) (fkey m) /\
    Forall (fun x => lex_le (fkey x) (fkey m)) rest.
Proof.
  induction rest as [|x rest IH]; intros acc Hacc Hrest; cbn [fold_left].
  - split; [exact Hacc | split; [apply lex_le_refl | constructor]].
  - inversion Hrest as [|? ? Hx Hrest']; subst.
    assert (Hstep : PrimFloat.is_nan (Pd.fmax acc x) = false /\
                    lex_le (fkey acc) (fkey (Pd.fmax acc x)) /\
                    lex_le (fkey x) (fkey (Pd.fmax acc x))).
    { unfold Pd.fmax. destruct (PrimFloat.ltb acc x) eqn:E.
      - split; [exact Hx|]. split; [|apply lex_le_refl].
        apply (ltb_key acc x Hacc Hx) in E.
        destruct (lex_le_total (fkey acc) (fkey x)); tauto.
      - split; [exact Hacc|]. split; [apply lex_le_refl|].
        destruct (lex_le_dec (fkey x) (fkey acc)) as [H|H]; [exact H|].
        apply (ltb_key acc x Hacc Hx) in H. congruence. }
    destruct Hstep as (Hn & Ha & Hb).
    destruct (IH (Pd.fmax acc x) Hn Hrest') as (Hm & Hle & Hall).
    split; [exact Hm|]. split.
    + eapply lex_le_trans; eassumption.
    + constructor; [eapply lex_le_trans; eassumption | exact Hall].
Qed.

(** On a window without NaN every observation lies between the rolling
    minimum and the rolling maximum. *)
Lemma reduce_bounds (win : list float) (x : float) :
  existsb PrimFloat.is_nan win = false -> In x win ->
  PrimFloat.is_nan x = false /\
  lex_le (fkey (Pd.reduce Pd.fmin win)) (fkey x) /\
  lex_le (fkey x) (fkey (Pd.reduce Pd.fmax win)).
Proof.
  intros Hnan Hin. apply no_nan_Forall in Hnan.
  split; [exact (proj1 (Forall_forall _ _) Hnan x Hin)|].
  destruct win as [|y rest]; [destruct Hin|].
  inversion Hnan as [|? ? Hy Hrest]; subst. cbn [Pd.reduce].
  destruct (fold_fmin_bound rest y Hy Hrest) as (_ & Hlo & Hlos).
  destruct (fold_fmax_bound rest y Hy Hrest) as (_ & Hhi & His).
  destruct Hin as [<-|Hin].
  - split; assumption.
  - split.
    + exact (proj1 (Forall_forall _ _) Hlos x Hin).
    + exact (proj1 (Forall_forall _ _) His x Hin).
Qed.

Lemma nth_error_indexed {A B : Type} (f : nat * A -> B) (l : list A) :
  forall s i,
    nth_error (map f (combine (seq s (List.length l)) l)) i
    = option_map (fun b => f (s + i, b)) (nth_error l i).
Proof.
  induction l as [|a l IH]; intros s i.
  - destruct i; reflexivity.
  - cbn [List.length seq combine map]. destruct i as [|i]; cbn [nth_error].
    + rewrite Nat.add_0_r. reflexivity.
    + rewrite IH. rewrite <- plus_n_Sm. reflexivity.
Qed.

End SeriesFacts.

(* ------------------------------------------------------------------ *)
(** ** Range position on a window of zero width *)

Section RangePosition.

Variable ta_rsi : Pd.Series -> nat -> option Pd.Series.
Variable rolling_mean : nat -> Pd.Series -> Pd.Series.
Variable rolling_std : nat -> Pd.Series -> Pd.Series.

#[local] Abbreviation indicators := (compute_indicators ta_rsi rolling_mean rolling_std).

(** The columns [low20], [high20] and [pos20] of row [i], in terms of the
    sorted closes. *)
Lemma range_columns_at (df : list Bar) (i : nat) (row : Row) :
  nth_error (indicators df) i = Some row ->
  let c := map close (sort_values df) in
  let lo := Pd.rolling_min 20 c in
  let hi := Pd.rolling_max 20 c in
  (i < List.length c)%nat /\
  low20 row = Some (nth i lo PrimFloat.nan) /\
  high20 row = Some (nth i hi PrimFloat.nan) /\
  pos20 row =
    Some (nth i (Pd.div (Pd.sub c lo) (Pd.add_scalar (Pd.sub hi lo) 1e-9)) PrimFloat.nan).
Proof.
  unfold compute_indicators. cbv zeta.
  rewrite (SeriesFacts.nth_error_indexed _ (sort_values df) 0 i).
  destruct (nth_error (sort_values df) i) as [b|] eqn:E; [|discriminate].
  cbn [option_map]. intro H.
  assert (Hi : (i < List.length (map close (sort_values df)))%nat).
  { rewrite length_map. apply nth_error_Some. congruence. }
  split; [exact Hi|].
  injection H as <-. cbn [low20 high20 pos20].
  repeat split; reflexivity.
Qed.

End RangePosition.

(** C8, as stated, fails: on a flat 20-day series the window at row 19 has
    zero width, and the position computed there is not large. *)
Lemma flat_window_pos20_not_large :
  ~ (forall row,
        nth_error (compute_indicators rsi_absent rolling_undefined rolling_undefined
                                      (flat_series 20)) 19 = Some row ->
        PrimFloat.eqb (Py.float_ (high20 row)) (Py.float_ (low20 row)) = true ->
        exists p, pos20 row = Some p /\ PrimFloat.is_finite p = true /\ large p = true).
Proof.
  intro H.
  destruct (H flat_row) as (p & Hp & _ & Hl).
  - vm_compute. reflexivity.
  - vm_compute. reflexivity.
  - vm_compute in Hp. injection Hp as <-. vm_compute in Hl. discriminate Hl.
Qed.

(** The values on that row: both bounds are 100 and the position is 0. *)
Example flat_row_values :
  low20 flat_row = Some 100%float /\ high20 flat_row = Some 100%float /\
  pos20 flat_row = Some 0%float.
Proof. vm_compute. repeat split; reflexivity. Qed.

(** C8, amended: when the 20-day window of a row has zero width, with
    high20 equal to low20 and finite, the denominator high20 - low20 + 1e-9
    is 1e-9, the numerator close - low20 is zero because close lies in the
    window, and pos20 is zero: a finite value that is not large.  The
    computation is a total function of the series, nothing is raised. *)
Theorem pos20_zero_width
        (ta_rsi : Pd.Series -> nat -> option Pd.Series)
        (rolling_mean rolling_std : nat -> Pd.Series -> Pd.Series)
        (df : list Bar) (i : nat) (row : Row) :
  nth_error (compute_indicators ta_rsi rolling_mean rolling_std df) i = Some row ->
  PrimFloat.is_finite (Py.float_ (low20 row)) = true ->
  PrimFloat.eqb (Py.float_ (high20 row)) (Py.float_ (low20 row)) = true ->
  exists p,
    pos20 row = Some p /\ PrimFloat.eqb p 0 = true /\
    PrimFloat.is_finite p = true /\ large p = false.
Proof.
  intros Hrow Hfin Heq.
  destruct (range_columns_at _ _ _ _ _ _ Hrow) as (Hi & Hlo & Hhi & Hpos).
  set (c := map close (sort_values df)) in *.
  set (lo := Pd.rolling_min 20 c) in *.
  set (hi := Pd.rolling_max 20 c) in *.
  rewrite Hlo in Hfin, Heq. rewrite Hhi in Heq. cbn [Py.float_] in Hfin, Heq.
  set (L := nth i lo PrimFloat.nan) in *.
  set (U := nth i hi PrimFloat.nan) in *.
  set (C := nth i c PrimFloat.nan) in *.
  destruct (FloatFacts.eqb_not_nan _ _ Heq) as [HU HL].
  destruct (SeriesFacts.rolling_defined Pd.fmin 20 c i Hi HL) as (win & Hwin & Hnan & HLr).
  destruct (SeriesFacts.rolling_defined Pd.fmax 20 c i Hi HU) as (win' & Hwin' & _ & HUr).
  assert (win' = win) by congruence. subst win'.
  assert (Hin : In C win) by (apply (SeriesFacts.window_last 20 c i); [lia | exact Hi | exact Hwin]).
  destruct (SeriesFacts.reduce_bounds win C Hnan Hin) as (HC & Hlow & Hup).
  fold (Pd.rolling_min 20 c) in HLr. fold (Pd.rolling_max 20 c) in HUr.
  fold lo L in HLr. fold hi U in HUr. rewrite <- HLr in Hlow. rewrite <- HUr in Hup.
  assert (HCL : PrimFloat.eqb C L = true).
  { apply (OrderFacts.eqb_key C L HC HL).
    apply (proj1 (OrderFacts.eqb_key U L HU HL)) in Heq. rewrite Heq in Hup.
    apply OrderFacts.lex_le_antisym; assumption. }
  destruct (ArithFacts.sub_equal_is_zero C L HCL Hfin) as [s1 Hnum].
  destruct (ArithFacts.sub_equal_is_zero U L Heq Hfin) as [s2 Hden].
  exists ((C - L) / 1e-9)%float.
  split.
  - rewrite Hpos. f_equal. unfold Pd.div.
    rewrite SeriesFacts.nth_map2 by (unfold Pd.sub; rewrite SeriesFacts.length_map2; exact Hi).
    rewrite SeriesFacts.nth_add_scalar
      by (unfold Pd.sub, hi, Pd.rolling_max;
          rewrite SeriesFacts.length_map2, SeriesFacts.length_rolling; exact Hi).
    unfold Pd.sub.
    rewrite !SeriesFacts.nth_map2
      by (try (unfold hi, Pd.rolling_max; rewrite SeriesFacts.length_rolling); exact Hi).
    fold C L U. rewrite (ArithFacts.zero_add_eps _ _ Hden). reflexivity.
  - pose proof (ArithFacts.zero_div_eps _ _ Hnum) as Hp.
    split; [exact (ArithFacts.zero_eqb_0 _ _ Hp)|].
    exact (ArithFacts.zero_finite_small _ _ Hp).
Qed.

Lemma pos20_zero_width_witness :
  exists p,
    pos20 flat_row = Some p /\ PrimFloat.eqb p 0 = true /\
    PrimFloat.is_finite p = true /\ large p = false.
Proof.
  apply (pos20_zero_width rsi_absent rolling_undefined rolling_undefined
                          (flat_series 20) 19 flat_row);
    vm_compute; reflexivity.
Defined.

(* ------------------------------------------------------------------ *)
(** ** The first length at which the backtest reports *)

Lemma map_snd_indexed {A B : Type} (g : A -> B) (l : list A) :
  forall s, map (fun p : nat * A => g (snd p)) (combine (seq s (List.length l)) l) = map g l.
Proof.
  induction l as [|a l IH]; intro s; [reflexivity|].
  cbn [List.length seq combine map snd]. rewrite IH. reflexivity.
Qed.

Lemma closes_compute_indicators
      (ta_rsi : Pd.Series -> nat -> option Pd.Series)
      (rolling_mean rolling_std : nat -> Pd.Series -> Pd.Series) (df : list Bar) :
  map (fun r => close (bar r)) (compute_indicators ta_rsi rolling_mean rolling_std df)
  = map close (sort_values df).
Proof.
  unfold compute_indicators. cbv zeta. rewrite map_map.
  rewrite <- (map_snd_indexed close (sort_values df) 0).
  apply map_ext. intros [i b]. reflexivity.
Qed.

(** With 262 + horizon rows the guard lets the replay run: a flat series of
    282 days at horizon 20 yields a report, whatever the library routines
    compute. *)
Example flat_282_reports
        (ta_rsi : Pd.Series -> nat -> option Pd.Series)
        (rolling_mean rolling_std : nat -> Pd.Series -> Pd.Series)
        (np_mean : list float -> float) :
  exists overall out,
    backtest_score_bins ta_rsi rolling_mean rolling_std np_mean (flat_series 282) 20
    = Returned (Report overall out 20) /\ overall_n overall = 1%nat.
Proof.
  unfold backtest_score_bins. cbv zeta.
  rewrite closes_compute_indicators, length_compute_indicators.
  set (c := map close (sort_values (flat_series 282))). vm_compute in c.
  set (shifted := Pd.shift_checked _ c). vm_compute in shifted.
  subst shifted. cbv iota beta.
  set (g := (Z.of_nat (List.length (flat_series 282)) - 20 - 1 <=? 260)%Z).
  vm_compute in g. subst g. cbv iota.
  set (todo := range 260 (Z.of_nat (List.length (flat_series 282)) - 20 - 1)).
  vm_compute in todo. subst todo. cbn [replay].
  destruct (nth_error _ (Z.to_nat 260)) as [row|] eqn:E.
  - destruct (_score_from_row row) as [[score reasons] features].
    set (fwd := Pd.at_ _ 260). vm_compute in fwd. subst fwd.
    change (PrimFloat.is_nan 0) with false. cbv iota. cbn [app].
    eexists. eexists. split; reflexivity.
  - apply nth_error_None in E. rewrite length_compute_indicators in E.
    vm_compute in E. exfalso. lia.
Qed.

(* ------------------------------------------------------------------ *)
(** ** The number format on sample values *)

Example format_fixed_50 : Py.format_fixed 1 50%float = "50.0".
Proof. vm_compute. reflexivity. Qed.

Example format_fixed_ratio : Py.format_fixed 2 1.8%float = "1.80".
Proof. vm_compute. reflexivity. Qed.

Example format_fixed_tie : Py.format_fixed 1 0.25%float = "0.2".
Proof. vm_compute. reflexivity. Qed.

Example format_fixed_neg : Py.format_fixed 0 (-30.5)%float = "-30".
Proof. vm_compute. reflexivity. Qed.

Example format_fixed_small : Py.format_fixed 1 (-0.04)%float = "-0.0".
Proof. vm_compute. reflexivity. Qed.

(* ------------------------------------------------------------------ *)
(** ** The row scorer, factor by factor *)

Module FactorFacts.
#[local] Open Scope Z_scope.

Ltac branches :=
  repeat match goal with
         | |- context [if ?b then _ else _] => destruct b
         end.

Ltac settle :=
  intros row [s rs]; unfold contribution; branches;
  unfold add, append; cbn [fst snd List.length app Z.of_nat];
  repeat split; try lia;
  rewrite ?Z.add_0_l, ?Z.add_0_r, ?app_nil_r; reflexivity.

Lemma acts_ma20 : acts factor_ma20 (-8) 8.
Proof. unfold acts, factor_ma20. settle. Qed.

Lemma acts_ma60 : acts factor_ma60 (-10) 10.
Proof. unfold acts, factor_ma60. settle. Qed.

Lemma acts_ma120 : acts factor_ma120 (-6) 6.
Proof. unfold acts, factor_ma120. settle. Qed.

Lemma acts_alignment : acts factor_alignment (-8) 8.
Proof. unfold acts, factor_alignment. settle. Qed.

Lemma acts_rsi : acts factor_rsi (-10) 10.
Proof. unfold acts, factor_rsi. settle. Qed.

Lemma acts_mom20 : acts factor_mom20 (-6) 6.
Proof. unfold acts, factor_mom20. settle. Qed.

Lemma acts_mom60 : acts factor_mom60 (-6) 6.
Proof. unfold acts, factor_mom60. settle. Qed.

Lemma acts_vol_ratio : acts factor_vol_ratio (-3) 8.
Proof. unfold acts, factor_vol_ratio. settle. Qed.

Lemma acts_vol20 : acts factor_vol20 (-5) 2.
Proof. unfold acts, factor_vol20. settle. Qed.

Lemma acts_dd252 : acts factor_dd252 (-3) 5.
Proof. unfold acts, factor_dd252. settle. Qed.

Lemma acts_pos20 : acts factor_pos20 (-2) 3.
Proof. unfold acts, factor_pos20. settle. Qed.

End FactorFacts.

Lemma acts_factors :
  Forall (fun f => exists lo hi, acts f lo hi) factors.
Proof.
  unfold factors.
  repeat (constructor; [do 2 eexists;
                        first [ apply FactorFacts.acts_ma20 | apply FactorFacts.acts_ma60
                              | apply FactorFacts.acts_ma120 | apply FactorFacts.acts_alignment
                              | apply FactorFacts.acts_rsi | apply FactorFacts.acts_mom20
                              | apply FactorFacts.acts_mom60 | apply FactorFacts.acts_vol_ratio
                              | apply FactorFacts.acts_vol20 | apply FactorFacts.acts_dd252
                              | apply FactorFacts.acts_pos20 ] |]).
  constructor.
Qed.

Lemma fold_acts (row : Row) (fs : list (Row -> acc -> acc)) :
  Forall (fun f => exists lo hi, acts f lo hi) fs ->
  forall st,
    fold_left (fun st f => f row st) fs st
    = (fst st + fold_right Z.add 0 (map (fun f => fst (contribution f row)) fs),
       (snd st ++ List.concat (map (fun f => snd (contribution f row)) fs))%list).
Proof.
  induction 1 as [|f fs [lo [hi Hf]] _ IH]; intros [s rs]; cbn [fold_left map fold_right List.concat].
  - cbn [fst snd]. rewrite Z.add_0_r, app_nil_r. reflexivity.
  - destruct (Hf row (s, rs)) as [E _]. rewrite E, IH. cbn [fst snd].
    rewrite <- app_assoc. f_equal. lia.
Qed.

Lemma score_state_fold (row : Row) :
  score_state row = fold_left (fun st f => f row st) factors (50, []).
Proof. reflexivity. Qed.

Lemma score_state_sum (row : Row) :
  score_state row
  = (50 + fold_right Z.add 0 (map (fun f => fst (contribution f row)) factors),
     List.concat (map (fun f => snd (contribution f row)) factors)).
Proof.
  rewrite score_state_fold, (fold_acts row factors acts_factors). reflexivity.
Qed.

(** Bounds of the running sum and of the reason list, and the link between
    them. *)
Lemma score_state_bounds (row : Row) :
  -17 <= fst (score_state row) <= 122 /\
  (List.length (snd (score_state row)) <= 11)%nat /\
  - 10 * Z.of_nat (List.length (snd (score_state row))) <= fst (score_state row) - 50
    <= 10 * Z.of_nat (List.length (snd (score_state row))).
Proof.
  rewrite score_state_sum. unfold factors.
  cbn [map fold_right List.concat fst snd]. rewrite !length_app. cbn [List.length].
  destruct (FactorFacts.acts_ma20 row (0, [])) as (_ & ? & ? & ?).
  destruct (FactorFacts.acts_ma60 row (0, [])) as (_ & ? & ? & ?).
  destruct (FactorFacts.acts_ma120 row (0, [])) as (_ & ? & ? & ?).
  destruct (FactorFacts.acts_alignment row (0, [])) as (_ & ? & ? & ?).
  destruct (FactorFacts.acts_rsi row (0, [])) as (_ & ? & ? & ?).
  destruct (FactorFacts.acts_mom20 row (0, [])) as (_ & ? & ? & ?).
  destruct (FactorFacts.acts_mom60 row (0, [])) as (_ & ? & ? & ?).
  destruct (FactorFacts.acts_vol_ratio row (0, [])) as (_ & ? & ? & ?).
  destruct (FactorFacts.acts_vol20 row (0, [])) as (_ & ? & ? & ?).
  destruct (FactorFacts.acts_dd252 row (0, [])) as (_ & ? & ? & ?).
  destruct (FactorFacts.acts_pos20 row (0, [])) as (_ & ? & ? & ?).
  repeat split; lia.
Qed.

(* ------------------------------------------------------------------ *)
(** ** The row scorer around one factor *)

Lemma contributions_around (row : Row) (f : Row -> acc -> acc) (d : Z) (l : list string)
      (fs : list (Row -> acc -> acc)) :
  forall k,
    nth_error fs k = Some f ->
    contribution f row = (d, l) ->
    deltas fs row = deltas (firstn k fs) row + d + deltas (skipn (S k) fs) row /\
    reasons_from fs row
    = (reasons_from (firstn k fs) row ++ l ++ reasons_from (skipn (S k) fs) row)%list.
Proof.
  unfold deltas, reasons_from.
  induction fs as [|g fs IH]; intros [|k] Hk Hc; try discriminate Hk.
  - cbn [nth_error] in Hk. assert (g = f) by congruence. subst g.
    cbn [firstn skipn map fold_right List.concat app]. rewrite Hc. cbn [fst snd].
    split; [lia | reflexivity].
  - cbn [nth_error] in Hk. destruct (IH k Hk Hc) as [E1 E2].
    cbn [firstn map fold_right List.concat].
    change (skipn (S (S k)) (g :: fs)) with (skipn (S k) fs).
    rewrite E1, E2, <- app_assoc. split; [lia | reflexivity].
Qed.

(** The scorer's state as the contribution of one factor among the others. *)
Lemma score_state_around (row : Row) (k : nat) (f : Row -> acc -> acc)
      (d : Z) (l : list string) :
  nth_error factors k = Some f ->
  contribution f row = (d, l) ->
  score_state row = state_with k d l row.
Proof.
  intros Hk Hc. rewrite score_state_sum.
  destruct (contributions_around row f d l factors k Hk Hc) as [E1 E2].
  unfold deltas in E1. unfold reasons_from in E2.
  unfold state_with. rewrite E1, E2. fold (deltas (firstn k factors) row).
  f_equal. unfold deltas. lia.
Qed.

(** Only the RSI block reads rsi14. *)
Lemma without_rsi14_others (row : Row) :
  contribution factor_rsi (without_rsi14 row) = (0, []) /\
  deltas (firstn 4 factors) (without_rsi14 row) = deltas (firstn 4 factors) row /\
  deltas (skipn 5 factors) (without_rsi14 row) = deltas (skipn 5 factors) row /\
  reasons_from (firstn 4 factors) (without_rsi14 row) = reasons_from (firstn 4 factors) row /\
  reasons_from (skipn 5 factors) (without_rsi14 row) = reasons_from (skipn 5 factors) row.
Proof. destruct row. repeat split; reflexivity. Qed.

(** C7: on every row whose rsi14 is defined, the Row Scorer's RSI factor
    contributes a delta [d] and exactly one reason: the state before the
    clamp is the base 50 plus the other ten factors' deltas plus [d], the
    reason list is the other factors' reasons with that one reason in fifth
    place of the evaluation order, and the score is the clamped sum.  Against
    the same row with rsi14 emptied the sum moves by [d] and the reason list
    grows by one.  [d] is +10 exactly when rsi14 < 30, -10 exactly when
    rsi14 > 70 and 0 otherwise, the one reason being appended in all three
    cases. *)
Theorem rsi_factor_one_reason (row : Row) :
  Py.notna (rsi14 row) = true ->
  let r := Py.float_ (rsi14 row) in
  exists (d : Z) (reason : string),
    score_state row = state_with 4 d [reason] row /\
    score_of row = Z.max 0 (Z.min 100 (fst (state_with 4 d [reason] row))) /\
    reasons_of row = snd (state_with 4 d [reason] row) /\
    fst (score_state row) = fst (score_state (without_rsi14 row)) + d /\
    List.length (reasons_of row) = S (List.length (reasons_of (without_rsi14 row))) /\
    (forall st, factor_rsi row st = (fst st + d, (snd st ++ [reason])%list)) /\
    (d = 10 <-> Py.lt r 30 = true) /\
    (d = -10 <-> Py.gt r 70 = true) /\
    (d = 0 <-> Py.lt r 30 = false /\ Py.gt r 70 = false).
Proof.
  intros Hdef r.
  destruct (factor_rsi_step row Hdef) as (d & reason & Hstep & H10 & Hm10 & H0).
  exists d, reason.
  assert (Hc : contribution factor_rsi row = (d, [reason])).
  { unfold contribution. rewrite Hstep. reflexivity. }
  assert (E : score_state row = state_with 4 d [reason] row).
  { apply (score_state_around row 4 factor_rsi); [reflexivity | exact Hc]. }
  destruct (without_rsi14_others row) as (Hc0 & Hb & Ha & Hrb & Hra).
  assert (E0 : score_state (without_rsi14 row) = state_with 4 0 [] (without_rsi14 row)).
  { apply (score_state_around _ 4 factor_rsi); [reflexivity | exact Hc0]. }
  repeat match goal with |- _ /\ _ => split end.
  - exact E.
  - rewrite score_of_clamp, E. reflexivity.
  - change (reasons_of row) with (snd (score_state row)). rewrite E. reflexivity.
  - rewrite E, E0. unfold state_with. cbn [fst]. rewrite Hb, Ha. lia.
  - change (reasons_of row) with (snd (score_state row)).
    change (reasons_of (without_rsi14 row)) with (snd (score_state (without_rsi14 row))).
    rewrite E, E0. unfold state_with. cbn [snd]. rewrite Hrb, Hra.
    rewrite !length_app. cbn [List.length]. lia.
  - exact Hstep.
  - exact H10.
  - exact Hm10.
  - exact H0.
Qed.

Lemma rsi_factor_one_reason_witness :
  exists (d : Z) (reason : string),
    score_state scenario1 = state_with 4 d [reason] scenario1 /\
    score_of scenario1 = Z.max 0 (Z.min 100 (fst (state_with 4 d [reason] scenario1))) /\
    reasons_of scenario1 = snd (state_with 4 d [reason] scenario1) /\
    fst (score_state scenario1) = fst (score_state (without_rsi14 scenario1)) + d /\
    List.length (reasons_of scenario1)
    = S (List.length (reasons_of (without_rsi14 scenario1))) /\
    (forall st, factor_rsi scenario1 st = (fst st + d, (snd st ++ [reason])%list)) /\
    (d = 10 <-> Py.lt 50 30 = true) /\
    (d = -10 <-> Py.gt 50 70 = true) /\
    (d = 0 <-> Py.lt 50 30 = false /\ Py.gt 50 70 = false).
Proof.
  apply (rsi_factor_one_reason scenario1). reflexivity.
Defined.

(** C9: on every row in which a moving average is defined and close is
    equal to it, the Row Scorer takes the tie as "below", because the test is
    [close > ma]: the state before the clamp is the base 50 plus the other
    factors' deltas minus 8 (ma20), 10 (ma60) or 6 (ma120), the reason list
    holds the below-the-average reason at the factor's place, and the score
    is the clamped sum. *)
Theorem ma_tie_counts_as_below (row : Row) :
  (Py.notna (ma20 row) = true ->
   PrimFloat.eqb (close (bar row)) (Py.float_ (ma20 row)) = true ->
   score_state row = state_with 0 (-8) ["20일선 아래"] row /\
   score_of row = Z.max 0 (Z.min 100 (fst (state_with 0 (-8) ["20일선 아래"] row))) /\
   reasons_of row = snd (state_with 0 (-8) ["20일선 아래"] row) /\
   forall st, factor_ma20 row st = (fst st - 8, (snd st ++ ["20일선 아래"])%list)) /\
  (Py.notna (ma60 row) = true ->
   PrimFloat.eqb (close (bar row)) (Py.float_ (ma60 row)) = true ->
   score_state row = state_with 1 (-10) ["60일선 아래"] row /\
   score_of row = Z.max 0 (Z.min 100 (fst (state_with 1 (-10) ["60일선 아래"] row))) /\
   reasons_of row = snd (state_with 1 (-10) ["60일선 아래"] row) /\
   forall st, factor_ma60 row st = (fst st - 10, (snd st ++ ["60일선 아래"])%list)) /\
  (Py.notna (ma120 row) = true ->
   PrimFloat.eqb (close (bar row)) (Py.float_ (ma120 row)) = true ->
   score_state row = state_with 2 (-6) ["120일선 아래"] row /\
   score_of row = Z.max 0 (Z.min 100 (fst (state_with 2 (-6) ["120일선 아래"] row))) /\
   reasons_of row = snd (state_with 2 (-6) ["120일선 아래"] row) /\
   forall st, factor_ma120 row st = (fst st - 6, (snd st ++ ["120일선 아래"])%list)).
Proof.
  split; [|split]; intros Hdef Heq.
  - assert (Hstep : forall st, factor_ma20 row st
                               = (fst st - 8, (snd st ++ ["20일선 아래"])%list))
      by (intro st; apply (factor_ma_tie_step row st); assumption).
    assert (E : score_state row = state_with 0 (-8) ["20일선 아래"] row).
    { apply (score_state_around row 0 factor_ma20); [reflexivity|].
      unfold contribution. rewrite Hstep. reflexivity. }
    split; [exact E|]. split; [rewrite score_of_clamp, E; reflexivity|].
    split; [|exact Hstep].
    change (reasons_of row) with (snd (score_state row)). rewrite E. reflexivity.
  - assert (Hstep : forall st, factor_ma60 row st
                               = (fst st - 10, (snd st ++ ["60일선 아래"])%list))
      by (intro st; apply (factor_ma_tie_step row st); assumption).
    assert (E : score_state row = state_with 1 (-10) ["60일선 아래"] row).
    { apply (score_state_around row 1 factor_ma60); [reflexivity|].
      unfold contribution. rewrite Hstep. reflexivity. }
    split; [exact E|]. split; [rewrite score_of_clamp, E; reflexivity|].
    split; [|exact Hstep].
    change (reasons_of row) with (snd (score_state row)). rewrite E. reflexivity.
  - assert (Hstep : forall st, factor_ma120 row st
                               = (fst st - 6, (snd st ++ ["120일선 아래"])%list))
      by (intro st; apply (factor_ma_tie_step row st); assumption).
    assert (E : score_state row = state_with 2 (-6) ["120일선 아래"] row).
    { apply (score_state_around row 2 factor_ma120); [reflexivity|].
      unfold contribution. rewrite Hstep. reflexivity. }
    split; [exact E|]. split; [rewrite score_of_clamp, E; reflexivity|].
    split; [|exact Hstep].
    change (reasons_of row) with (snd (score_state row)). rewrite E. reflexivity.
Qed.

(** A row whose close sits on all three averages. *)
Lemma ma_tie_counts_as_below_witness :
  score_state tie_row = state_with 0 (-8) ["20일선 아래"] tie_row /\
  score_state tie_row = state_with 1 (-10) ["60일선 아래"] tie_row /\
  score_state tie_row = state_with 2 (-6) ["120일선 아래"] tie_row.
Proof.
  destruct (ma_tie_counts_as_below tie_row) as [H20 [H60 H120]].
  split; [apply H20 | split; [apply H60 | apply H120]]; reflexivity.
Defined.

(** X1: the factors do not interfere.  The running sum is the base 50 plus
    the deltas the eleven factors contribute on their own, and the reason
    list is the concatenation of their reasons in evaluation order. *)
Theorem score_state_decomposes (row : Row) :
  fst (score_state row)
  = 50 + fold_right Z.add 0 (map (fun f => fst (contribution f row)) factors) /\
  reasons_of row = List.concat (map (fun f => snd (contribution f row)) factors).
Proof.
  unfold reasons_of, _score_from_row. cbn [fst snd].
  rewrite score_state_sum. split; reflexivity.
Qed.

(** X2: before the clamp the sum lies between -17 and 122, and the scorer
    gives at most eleven reasons. *)
Theorem raw_score_range (row : Row) :
  -17 <= fst (score_state row) <= 122 /\ (List.length (reasons_of row) <= 11)%nat.
Proof.
  destruct (score_state_bounds row) as (H1 & H2 & _).
  split; [exact H1 | exact H2].
Qed.

(** X3: every adjustment is explained.  The sum differs from 50 by at most
    10 per reason given, so a row without reasons scores exactly 50. *)
Theorem adjustments_explained (row : Row) :
  Z.abs (fst (score_state row) - 50) <= 10 * Z.of_nat (List.length (reasons_of row)) /\
  (reasons_of row = [] -> score_of row = 50).
Proof.
  destruct (score_state_bounds row) as (_ & _ & H).
  change (reasons_of row) with (snd (score_state row)).
  split; [lia|].
  intro E. rewrite E in H. cbn [List.length Z.of_nat] in H.
  rewrite score_of_clamp. lia.
Qed.

Lemma adjustments_explained_witness : score_of (undefined_row 100) = 50.
Proof.
  apply (proj2 (adjustments_explained (undefined_row 100))). reflexivity.
Defined.

(* ------------------------------------------------------------------ *)
(** ** Features and the rule result *)

Lemma feature_not_nan (c : Py.cell) (x : float) :
  feature c = Some x -> PrimFloat.is_nan x = false.
Proof.
  unfold feature, Py.notna. destruct c as [f|]; [|discriminate].
  destruct (PrimFloat.is_nan f) eqn:E; cbn [negb]; [discriminate|].
  intros [= <-]. exact E.
Qed.

Lemma feature_defined (c : Py.cell) :
  feature c = None <-> Py.notna c = false.
Proof.
  unfold feature. destruct (Py.notna c); split; congruence.
Qed.

(** X4: the feature snapshot always lists the same eleven keys in the same
    order; under the key of an indicator it holds that indicator's value
    when it is defined and null when it is not, so no indicator is ever
    reported as NaN (only [close], copied as it is, could be). *)
Theorem features_fixed_keys_no_nan (row : Row) :
  let features := snd (_score_from_row row) in
  map fst features = feature_keys /\
  (forall v, In ("close", v) features <-> v = Some (close (bar row))) /\
  (forall k get, In (k, get) indicator_columns ->
     forall v, In (k, v) features <->
               v = if Py.notna (get row) then Some (Py.float_ (get row)) else None) /\
  (forall k x, In (k, Some x) features -> k <> "close" -> PrimFloat.is_nan x = false).
Proof.
  cbv zeta. unfold _score_from_row. cbn [snd]. unfold features_of.
  split; [reflexivity|]. split; [|split].
  - intro v. cbn [In]. split.
    + intro H.
      repeat match goal with
             | H : _ \/ _ |- _ => destruct H as [H|H]
             | H : False |- _ => destruct H
             end;
        first [ injection H as Ek Ev; discriminate Ek
              | injection H as Ev; symmetry; exact Ev ].
    + intros ->. left. reflexivity.
  - intros k get Hin v. unfold indicator_columns in Hin. cbn [In] in Hin.
    repeat match goal with
           | H : _ \/ _ |- _ => destruct H as [H|H]
           | H : False |- _ => destruct H
           end;
      injection Hin as <- <-; cbn [In]; (split;
      [ intro H;
        repeat match goal with
               | H : _ \/ _ |- _ => destruct H as [H|H]
               | H : False |- _ => destruct H
               end;
        first [ injection H as Ek Ev; discriminate Ek
              | injection H as Ev; symmetry; exact Ev ]
      | intros ->; repeat (first [left; reflexivity | right]) ]).
  - intros k x Hin Hk. cbn [In] in Hin.
    repeat match goal with
           | H : _ \/ _ |- _ => destruct H as [H|H]
           | H : False |- _ => destruct H
           end;
      injection Hin as Ek Ex;
      try (exfalso; apply Hk; symmetry; exact Ek);
      exact (feature_not_nan _ _ Ex).
Qed.

Lemma features_fixed_keys_no_nan_witness :
  In ("rsi14", Some 50%float) (snd (_score_from_row scenario1)).
Proof.
  apply (proj1 (proj2 (proj2 (features_fixed_keys_no_nan scenario1))) "rsi14" rsi14).
  - unfold indicator_columns. left. reflexivity.
  - reflexivity.
Defined.

Lemma rule_result_single (last : Row) :
  rule_result_from_df [last]
  = Some (mkRuleResult
            (score_of last) (score_to_rating (score_of last))
            (score_to_rating (score_of last) ++ " (점수 " ++ Py.decimal (score_of last)
               ++ "). " ++ String.concat " / " (firstn 5 (reasons_of last)))
            (features_of last) (reasons_of last)).
Proof. reflexivity. Qed.

(** X5: the rule result is read off the last row alone.  An empty frame
    makes [df.iloc[-1]] raise; otherwise the rows before the last one do not
    matter, the score is the last row's score (0 to 100), the rating is the
    rating of that score, the reasons are handed on in full and the comment
    quotes the first five of them. *)
Theorem rule_result_last_row :
  rule_result_from_df [] = None /\
  forall df last,
    rule_result_from_df (df ++ [last]) = rule_result_from_df [last] /\
    exists rr,
      rule_result_from_df (df ++ [last]) = Some rr /\
      rr_score rr = score_of last /\ 0 <= rr_score rr <= 100 /\
      rr_rating rr = score_to_rating (rr_score rr) /\
      rr_reasons rr = reasons_of last /\
      rr_features rr = features_of last /\
      rr_comment_rule rr
      = rr_rating rr ++ " (점수 " ++ Py.decimal (rr_score rr) ++ "). "
          ++ String.concat " / " (firstn 5 (rr_reasons rr)).
Proof.
  split; [reflexivity|]. intros df last.
  assert (E : rule_result_from_df (df ++ [last]) = rule_result_from_df [last]).
  { unfold rule_result_from_df. rewrite rev_app_distr. reflexivity. }
  split; [exact E|].
  rewrite E, rule_result_single. eexists. split; [reflexivity|].
  cbn [rr_score rr_rating rr_reasons rr_features rr_comment_rule].
  repeat split; try reflexivity; apply score_of_bounds.
Qed.

(* ------------------------------------------------------------------ *)
(** ** The frame of the indicator engine *)

Lemma insert_by_date_perm (b : Bar) (l : list Bar) :
  Permutation (b :: l) (insert_by_date b l).
Proof.
  induction l as [|x l IH]; cbn [insert_by_date]; [apply Permutation_refl|].
  destruct (date b <=? date x)%Z; [apply Permutation_refl|].
  eapply perm_trans; [apply perm_swap|]. apply perm_skip. exact IH.
Qed.

Lemma sort_values_perm (df : list Bar) : Permutation df (sort_values df).
Proof.
  induction df as [|b df IH]; [apply perm_nil|].
  unfold sort_values in *. cbn [fold_right].
  eapply perm_trans; [apply perm_skip; exact IH | apply insert_by_date_perm].
Qed.

Lemma insert_by_date_sorted (b : Bar) (l : list Bar) :
  StronglySorted date_le l -> StronglySorted date_le (insert_by_date b l).
Proof.
  induction 1 as [|x l Hl IH Hx]; cbn [insert_by_date].
  - constructor; constructor.
  - destruct (Z.leb_spec (date b) (date x)) as [Hle|Hgt].
    + constructor; [constructor; assumption|].
      constructor; [exact Hle|].
      eapply Forall_impl; [|exact Hx]. unfold date_le. intros a Ha. lia.
    + constructor; [exact IH|].
      apply (Permutation_Forall (insert_by_date_perm b l)).
      constructor; [unfold date_le; lia | exact Hx].
Qed.

Lemma sort_values_sorted (df : list Bar) : StronglySorted date_le (sort_values df).
Proof.
  induction df as [|b df IH]; [constructor|].
  unfold sort_values in *. cbn [fold_right]. apply insert_by_date_sorted. exact IH.
Qed.

Lemma bars_compute_indicators
      (ta_rsi : Pd.Series -> nat -> option Pd.Series)
      (rolling_mean rolling_std : nat -> Pd.Series -> Pd.Series) (df : list Bar) :
  map bar (compute_indicators ta_rsi rolling_mean rolling_std df) = sort_values df.
Proof.
  unfold compute_indicators. cbv zeta. rewrite map_map.
  transitivity (map (fun p : nat * Bar => snd p)
                    (combine (seq 0 (List.length (sort_values df))) (sort_values df))).
  - apply map_ext. intros [i b]. reflexivity.
  - exact (eq_trans (map_snd_indexed (fun b => b) (sort_values df) 0) (map_id _)).
Qed.

(** X6: the indicator engine keeps every record of the series and hands
    the rows back in ascending order of date: the records of its rows are a
    rearrangement of the input, sorted by date. *)
Theorem compute_indicators_sorts
        (ta_rsi : Pd.Series -> nat -> option Pd.Series)
        (rolling_mean rolling_std : nat -> Pd.Series -> Pd.Series) (df : list Bar) :
  let out := compute_indicators ta_rsi rolling_mean rolling_std df in
  Permutation df (map bar out) /\
  StronglySorted Z.le (map (fun r => date (bar r)) out) /\
  List.length out = List.length df.
Proof.
  cbv zeta. split; [|split].
  - rewrite bars_compute_indicators. apply sort_values_perm.
  - rewrite <- (map_map bar date), bars_compute_indicators.
    pose proof (sort_values_sorted df) as H.
    induction H as [|x l Hl IH Hx]; cbn [map]; constructor; [exact IH|].
    apply Forall_map. exact Hx.
  - apply length_compute_indicators.
Qed.

(* ------------------------------------------------------------------ *)
(** ** Undefined values and price columns *)

Module NanFacts.

Lemma is_nan_true (x : float) :
  PrimFloat.is_nan x = true <-> Prim2SF x = S754_nan.
Proof.
  pose proof (OrderFacts.is_nan_Prim2SF x) as H.
  destruct (PrimFloat.is_nan x); split; intro E; try reflexivity; try discriminate.
  - destruct (Prim2SF x) eqn:P; try reflexivity;
      exfalso; assert (F : true = false) by (apply H; discriminate); discriminate F.
  - exfalso. apply (proj1 H); [reflexivity | exact E].
Qed.

Lemma sub_nan_l (x y : float) :
  PrimFloat.is_nan x = true -> PrimFloat.is_nan (x - y) = true.
Proof.
  rewrite !is_nan_true, FloatAxioms.sub_spec. intros ->. reflexivity.
Qed.

Lemma sub_nan_r (x y : float) :
  PrimFloat.is_nan y = true -> PrimFloat.is_nan (x - y) = true.
Proof.
  rewrite !is_nan_true, FloatAxioms.sub_spec. intros ->.
  destruct (Prim2SF x); reflexivity.
Qed.

Lemma div_nan_l (x y : float) :
  PrimFloat.is_nan x = true -> PrimFloat.is_nan (x / y) = true.
Proof.
  rewrite !is_nan_true, FloatAxioms.div_spec. intros ->. reflexivity.
Qed.

Lemma div_nan_r (x y : float) :
  PrimFloat.is_nan y = true -> PrimFloat.is_nan (x / y) = true.
Proof.
  rewrite !is_nan_true, FloatAxioms.div_spec. intros ->.
  destruct (Prim2SF x); reflexivity.
Qed.

Lemma leb_key (x y : float) :
  PrimFloat.is_nan x = false -> PrimFloat.is_nan y = false ->
  (PrimFloat.leb x y = true <-> FloatOrder.lex_le (FloatOrder.fkey x) (FloatOrder.fkey y)).
Proof.
  intros Hx Hy. apply OrderFacts.is_nan_Prim2SF in Hx, Hy.
  rewrite FloatAxioms.leb_spec. unfold SFleb, FloatOrder.fkey.
  rewrite OrderFacts.SFcompare_key by assumption.
  rewrite <- OrderFacts.lex_compare_le.
  destruct (FloatOrder.lex_compare (FloatOrder.key (Prim2SF x)) (FloatOrder.key (Prim2SF y)));
    split; congruence.
Qed.

End NanFacts.

Module ColumnFacts.
#[local] Open Scope nat_scope.

Lemma nth_sub_scalar (xs : Pd.Series) (c : float) (i : nat) :
  i < List.length xs ->
  nth i (Pd.sub_scalar xs c) PrimFloat.nan = (nth i xs PrimFloat.nan - c)%float.
Proof.
  intro H. unfold Pd.sub_scalar.
  rewrite (nth_indep _ PrimFloat.nan (PrimFloat.nan - c)%float)
    by (rewrite length_map; exact H).
  apply (map_nth (fun x => (x - c)%float)).
Qed.

Lemma length_shift (k : Z) (xs : Pd.Series) :
  List.length (Pd.shift k xs) = List.length xs.
Proof.
  unfold Pd.shift, Pd.positions. rewrite !length_map, length_seq. reflexivity.
Qed.

Lemma nth_shift (k : Z) (xs : Pd.Series) (i : nat) :
  i < List.length xs ->
  nth i (Pd.shift k xs) PrimFloat.nan = Pd.at_ xs (Z.of_nat i - k).
Proof.
  intro H. unfold Pd.shift, Pd.positions. rewrite map_map.
  apply SeriesFacts.nth_map_seq. exact H.
Qed.

(** Before [w] observations are available the rolling value is undefined. *)
Lemma rolling_warm_up (op : float -> float -> float) (w : nat) (xs : Pd.Series) (i : nat) :
  S i < w -> nth i (Pd.rolling op w xs) PrimFloat.nan = PrimFloat.nan.
Proof.
  intro H. destruct (Nat.lt_ge_cases i (List.length xs)) as [Hi|Hi].
  - unfold Pd.rolling. rewrite SeriesFacts.nth_map_seq by exact Hi.
    unfold Pd.window. destruct (Nat.ltb_spec (S i) w); [reflexivity | lia].
  - apply nth_overflow. rewrite SeriesFacts.length_rolling. exact Hi.
Qed.

End ColumnFacts.

Section PriceColumns.

Variable ta_rsi : Pd.Series -> nat -> option Pd.Series.
Variable rolling_mean : nat -> Pd.Series -> Pd.Series.
Variable rolling_std : nat -> Pd.Series -> Pd.Series.

(** The columns of row [i] that are computed from the closes alone. *)
Lemma price_columns_at (df : list Bar) (i : nat) (row : Row) :
  nth_error (compute_indicators ta_rsi rolling_mean rolling_std df) i = Some row ->
  let c := map close (sort_values df) in
  let x := nth i c PrimFloat.nan in
  let lo := nth i (Pd.rolling_min 20 c) PrimFloat.nan in
  let hi := nth i (Pd.rolling_max 20 c) PrimFloat.nan in
  let top := nth i (Pd.rolling_max 252 c) PrimFloat.nan in
  (i < List.length c)%nat /\
  close (bar row) = x /\
  ret row = Some (x / Pd.at_ c (Z.of_nat i - 1) - 1)%float /\
  mom20 row = Some (x / Pd.at_ c (Z.of_nat i - 20) - 1)%float /\
  mom60 row = Some (x / Pd.at_ c (Z.of_nat i - 60) - 1)%float /\
  high252 row = Some top /\
  dd252 row = Some (x / top - 1)%float /\
  low20 row = Some lo /\
  high20 row = Some hi /\
  pos20 row = Some ((x - lo) / (hi - lo + 1e-9))%float.
Proof.
  unfold compute_indicators. cbv zeta.
  rewrite (SeriesFacts.nth_error_indexed _ (sort_values df) 0 i).
  destruct (nth_error (sort_values df) i) as [b|] eqn:E; [|discriminate].
  cbn [option_map]. intro H.
  assert (Hi : (i < List.length (map close (sort_values df)))%nat).
  { rewrite length_map. apply nth_error_Some. congruence. }
  split; [exact Hi|].
  assert (Hx : close b = nth i (map close (sort_values df)) PrimFloat.nan).
  { symmetry. apply nth_error_nth. rewrite nth_error_map, E. reflexivity. }
  injection H as <-.
  cbn [bar ret mom20 mom60 high252 dd252 low20 high20 pos20 Nat.add].
  unfold Pd.pct_change, Pd.div, Pd.sub.
  rewrite !ColumnFacts.nth_sub_scalar
    by (rewrite SeriesFacts.length_map2; exact Hi).
  rewrite !SeriesFacts.nth_map2
    by (rewrite ?SeriesFacts.length_map2; exact Hi).
  rewrite !SeriesFacts.nth_add_scalar
    by (rewrite SeriesFacts.length_map2; unfold Pd.rolling_max;
        rewrite SeriesFacts.length_rolling; exact Hi).
  rewrite !SeriesFacts.nth_map2
    by (unfold Pd.rolling_max; rewrite ?SeriesFacts.length_rolling; exact Hi).
  rewrite !ColumnFacts.nth_shift by exact Hi.
  repeat split; try reflexivity. exact Hx.
Qed.

End PriceColumns.

Lemma rolling_at (op : float -> float -> float) (w : nat) (xs : Pd.Series) (i : nat) :
  (i < List.length xs)%nat ->
  nth i (Pd.rolling op w xs) PrimFloat.nan
  = match Pd.window w xs i with
    | None => PrimFloat.nan
    | Some win => if existsb PrimFloat.is_nan win then PrimFloat.nan else Pd.reduce op win
    end.
Proof.
  intro Hi. unfold Pd.rolling. rewrite SeriesFacts.nth_map_seq by exact Hi. reflexivity.
Qed.

(** On a full window without NaN the rolling minimum and maximum are
    defined and enclose the current observation. *)
Lemma window_encloses (w : nat) (xs : Pd.Series) (i : nat) (win : list float) :
  (0 < w)%nat -> (i < List.length xs)%nat ->
  Pd.window w xs i = Some win -> existsb PrimFloat.is_nan win = false ->
  let x := nth i xs PrimFloat.nan in
  let lo := nth i (Pd.rolling_min w xs) PrimFloat.nan in
  let hi := nth i (Pd.rolling_max w xs) PrimFloat.nan in
  PrimFloat.is_nan x = false /\ PrimFloat.is_nan lo = false /\ PrimFloat.is_nan hi = false /\
  PrimFloat.leb lo x = true /\ PrimFloat.leb x hi = true.
Proof.
  intros Hw Hi Hwin Hnan. cbv zeta. unfold Pd.rolling_min, Pd.rolling_max.
  rewrite !rolling_at by exact Hi. rewrite Hwin, Hnan.
  pose proof (SeriesFacts.window_last w xs i win Hw Hi Hwin) as Hin.
  destruct (SeriesFacts.reduce_bounds win _ Hnan Hin) as (Hx & Hlo & Hhi).
  assert (Hm : PrimFloat.is_nan (Pd.reduce Pd.fmin win) = false /\
               PrimFloat.is_nan (Pd.reduce Pd.fmax win) = false).
  { pose proof (SeriesFacts.no_nan_Forall win Hnan) as Hall.
    destruct win as [|y rest]; [destruct Hin|].
    inversion Hall as [|? ? Hy Hrest]; subst. cbn [Pd.reduce]. split.
    - exact (proj1 (SeriesFacts.fold_fmin_bound rest y Hy Hrest)).
    - exact (proj1 (SeriesFacts.fold_fmax_bound rest y Hy Hrest)). }
  destruct Hm as [Hmlo Hmhi].
  repeat split; try assumption.
  - apply (NanFacts.leb_key _ _ Hmlo Hx). exact Hlo.
  - apply (NanFacts.leb_key _ _ Hx Hmhi). exact Hhi.
Qed.

(** X7: warm-up.  The first row has no return, rows 0..18 have no 20-day
    range (low20, high20, pos20), rows 0..19 no 20-day momentum, rows 0..59
    no 60-day momentum and rows 0..250 no 252-day high or drawdown: the
    scorer skips those factors there. *)
Theorem warm_up_rows_undefined
        (ta_rsi : Pd.Series -> nat -> option Pd.Series)
        (rolling_mean rolling_std : nat -> Pd.Series -> Pd.Series)
        (df : list Bar) (i : nat) (row : Row) :
  nth_error (compute_indicators ta_rsi rolling_mean rolling_std df) i = Some row ->
  ((i < 1)%nat -> Py.notna (ret row) = false) /\
  ((i < 19)%nat ->
   Py.notna (low20 row) = false /\ Py.notna (high20 row) = false /\
   Py.notna (pos20 row) = false) /\
  ((i < 20)%nat -> Py.notna (mom20 row) = false) /\
  ((i < 60)%nat -> Py.notna (mom60 row) = false) /\
  ((i < 251)%nat -> Py.notna (high252 row) = false /\ Py.notna (dd252 row) = false).
Proof.
  intro Hrow.
  destruct (price_columns_at _ _ _ _ _ _ Hrow)
    as (Hi & _ & Hret & Hm20 & Hm60 & Htop & Hdd & Hlo & Hhi & Hpos).
  rewrite Hret, Hm20, Hm60, Htop, Hdd, Hlo, Hhi, Hpos. unfold Py.notna.
  assert (Hat : forall k : Z, (Z.of_nat i < k)%Z ->
                  Pd.at_ (map close (sort_values df)) (Z.of_nat i - k) = PrimFloat.nan).
  { intros k Hk. unfold Pd.at_. destruct (Z.ltb_spec (Z.of_nat i - k) 0); [reflexivity | lia]. }
  assert (Hshift : forall x k, (Z.of_nat i < k)%Z ->
            negb (PrimFloat.is_nan
                    (x / Pd.at_ (map close (sort_values df)) (Z.of_nat i - k) - 1)) = false).
  { intros x k Hk. rewrite (Hat k Hk).
    rewrite NanFacts.sub_nan_l; [reflexivity|].
    apply NanFacts.div_nan_r. reflexivity. }
  split; [intro H; apply Hshift; lia|].
  split; [intro H; split; [|split]|].
  - unfold Pd.rolling_min. rewrite ColumnFacts.rolling_warm_up by lia. reflexivity.
  - unfold Pd.rolling_max. rewrite ColumnFacts.rolling_warm_up by lia. reflexivity.
  - unfold Pd.rolling_min at 1. rewrite ColumnFacts.rolling_warm_up by lia.
    rewrite NanFacts.div_nan_l; [reflexivity|].
    apply NanFacts.sub_nan_r. reflexivity.
  - split; [intro H; apply Hshift; lia|].
    split; [intro H; apply Hshift; lia|].
    intro H. split.
    + unfold Pd.rolling_max. rewrite ColumnFacts.rolling_warm_up by lia. reflexivity.
    + unfold Pd.rolling_max. rewrite ColumnFacts.rolling_warm_up by lia.
      rewrite NanFacts.sub_nan_l; [reflexivity|].
      apply NanFacts.div_nan_r. reflexivity.
Qed.

Lemma warm_up_rows_undefined_witness :
  Py.notna (mom20 flat_row) = false.
Proof.
  refine (proj1 (proj2 (proj2 (warm_up_rows_undefined
            rsi_absent rolling_undefined rolling_undefined (flat_series 20) 19 flat_row _))) _).
  - vm_compute. reflexivity.
  - repeat constructor.
Defined.

(** X8: whenever the 20-day range of a row is defined, its close lies in
    it, low20 <= close <= high20, and whenever the 252-day high is defined
    the close does not exceed it. *)
Theorem close_within_range
        (ta_rsi : Pd.Series -> nat -> option Pd.Series)
        (rolling_mean rolling_std : nat -> Pd.Series -> Pd.Series)
        (df : list Bar) (i : nat) (row : Row) :
  nth_error (compute_indicators ta_rsi rolling_mean rolling_std df) i = Some row ->
  (Py.notna (low20 row) = true ->
   Py.notna (high20 row) = true /\
   Py.le (Py.float_ (low20 row)) (close (bar row)) = true /\
   Py.le (close (bar row)) (Py.float_ (high20 row)) = true) /\
  (Py.notna (high252 row) = true ->
   Py.le (close (bar row)) (Py.float_ (high252 row)) = true).
Proof.
  intro Hrow.
  destruct (price_columns_at _ _ _ _ _ _ Hrow)
    as (Hi & Hx & _ & _ & _ & Htop & _ & Hlo & Hhi & _).
  rewrite Hx, Htop, Hlo, Hhi. unfold Py.notna, Py.le. cbn [Py.float_].
  split; intro Hdef; apply Bool.negb_true_iff in Hdef.
  - destruct (SeriesFacts.rolling_defined Pd.fmin 20 _ i Hi Hdef) as (win & Hwin & Hnan & _).
    destruct (window_encloses 20 _ i win ltac:(lia) Hi Hwin Hnan) as (_ & _ & Hh & Hle1 & Hle2).
    rewrite Hh. repeat split; assumption.
  - destruct (SeriesFacts.rolling_defined Pd.fmax 252 _ i Hi Hdef) as (win & Hwin & Hnan & _).
    destruct (window_encloses 252 _ i win ltac:(lia) Hi Hwin Hnan) as (_ & _ & _ & _ & Hle2).
    exact Hle2.
Qed.

Lemma close_within_range_witness :
  Py.notna (high20 flat_row) = true /\
  Py.le (Py.float_ (low20 flat_row)) (close (bar flat_row)) = true /\
  Py.le (close (bar flat_row)) (Py.float_ (high20 flat_row)) = true.
Proof.
  refine (proj1 (close_within_range rsi_absent rolling_undefined rolling_undefined
                                    (flat_series 20) 19 flat_row _) _);
    vm_compute; reflexivity.
Defined.

(* ------------------------------------------------------------------ *)
(** ** Backtest: exceptions and the shape of a report *)

Lemma range_spec (a b i : Z) : In i (range a b) <-> a <= i < b.
Proof.
  unfold range. rewrite in_map_iff. split.
  - intros (k & <- & Hk). apply in_seq in Hk. lia.
  - intro H. exists (Z.to_nat (i - a)). split; [lia|]. apply in_seq. lia.
Qed.

Lemma length_range (a b : Z) : List.length (range a b) = Z.to_nat (b - a).
Proof. unfold range. rewrite length_map, length_seq. reflexivity. Qed.

Section ReplayFacts.

Variable df : list Row.
Variable fwd : Pd.Series.

(** The replay raises as soon as a position lies outside the frame. *)
Lemma replay_raises (todo : list Z) :
  forall rows,
    (exists i, In i todo /\ (List.length df <= Z.to_nat i)%nat) ->
    replay df fwd todo rows = Raised IndexError.
Proof.
  induction todo as [|j todo IH]; intros rows (i & Hin & Hi); [destruct Hin|].
  cbn [replay].
  destruct (nth_error df (Z.to_nat j)) as [row|] eqn:E; [|reflexivity].
  assert (Hin' : In i todo).
  { destruct Hin as [->|Hin]; [|exact Hin].
    apply nth_error_None in Hi. congruence. }
  destruct (_score_from_row row) as [[score reasons] features].
  destruct (PrimFloat.is_nan (Pd.at_ fwd j)); apply IH; exists i; split; assumption.
Qed.

(** Inside the frame it returns, with at most one sample per position. *)
Lemma replay_returns (todo : list Z) :
  forall rows,
    (forall i, In i todo -> (Z.to_nat i < List.length df)%nat) ->
    exists rows', replay df fwd todo rows = Returned rows'.
Proof.
  induction todo as [|j todo IH]; intros rows Hall; cbn [replay].
  - eexists. reflexivity.
  - destruct (nth_error df (Z.to_nat j)) as [row|] eqn:E.
    + destruct (_score_from_row row) as [[score reasons] features].
      destruct (PrimFloat.is_nan (Pd.at_ fwd j)); apply IH;
        intros i Hi; apply Hall; right; exact Hi.
    + apply nth_error_None in E. specialize (Hall j (or_introl eq_refl)). lia.
Qed.

Lemma replay_length (todo : list Z) :
  forall rows rows',
    replay df fwd todo rows = Returned rows' ->
    (List.length rows' <= List.length rows + List.length todo)%nat.
Proof.
  induction todo as [|j todo IH]; intros rows rows'; cbn [replay List.length].
  - intros [= <-]. lia.
  - destruct (nth_error df (Z.to_nat j)) as [row|]; [|discriminate].
    destruct (_score_from_row row) as [[score reasons] features].
    destruct (PrimFloat.is_nan (Pd.at_ fwd j)); intro H; apply IH in H.
    + lia.
    + rewrite length_app in H. cbn [List.length] in H. lia.
Qed.

End ReplayFacts.

(** X9: how a call of the backtest ends, for every series and every
    integer horizon.  It raises OverflowError exactly when the series has
    rows and - horizon does not fit a signed 64-bit integer: the shift of
    the closes runs before the guard.  It raises IndexError exactly when the
    shift succeeds, the horizon is -2 or less and the guard lets the replay
    start: the replay range then runs past the last row.  In every other
    case, and in no other, it returns a result. *)
Theorem backtest_raises_iff
        (ta_rsi : Pd.Series -> nat -> option Pd.Series)
        (rolling_mean rolling_std : nat -> Pd.Series -> Pd.Series)
        (np_mean : list float -> float)
        (df : list Bar) (horizon : Z) :
  let run := backtest_score_bins ta_rsi rolling_mean rolling_std np_mean df horizon in
  let len := Z.of_nat (List.length df) in
  let shifts := df = [] \/ Pd.fits_intp (- horizon) = true in
  (run = Raised OverflowError <-> df <> [] /\ Pd.fits_intp (- horizon) = false) /\
  (run = Raised IndexError <-> shifts /\ horizon <= -2 /\ 260 < len - horizon - 1) /\
  ((exists o, run = Returned o) <->
   shifts /\ (-1 <= horizon \/ len - horizon - 1 <= 260)).
Proof.
  cbv zeta.
  set (len := Z.of_nat (List.length df)).
  set (run := backtest_score_bins ta_rsi rolling_mean rolling_std np_mean df horizon).
  assert (Hover : df <> [] -> Pd.fits_intp (- horizon) = false -> run = Raised OverflowError).
  { intros Hne Hfit. apply backtest_overflow; assumption. }
  assert (Hraise : df = [] \/ Pd.fits_intp (- horizon) = true ->
                   horizon <= -2 -> 260 < len - horizon - 1 -> run = Raised IndexError).
  { intros Hs Hh Hg. unfold run, backtest_score_bins. cbv zeta.
    destruct (shift_closes_returns ta_rsi rolling_mean rolling_std df (- horizon) Hs)
      as [shifted E].
    rewrite E, length_compute_indicators. fold len.
    destruct (Z.leb_spec (len - horizon - 1) 260); [lia|].
    rewrite replay_raises; [reflexivity|].
    exists (Z.max 260 len). split; [apply range_spec; lia|].
    rewrite length_compute_indicators. subst len. lia. }
  assert (Hret : df = [] \/ Pd.fits_intp (- horizon) = true ->
                 -1 <= horizon \/ len - horizon - 1 <= 260 ->
                 exists o, run = Returned o).
  { intros Hs Hh.
    destruct (Z.le_gt_cases (len - horizon - 1) 260) as [Hg|Hg].
    - eexists. apply backtest_guard_fails; [exact Hs | exact Hg].
    - destruct Hh as [Hh|Hh]; [|lia].
      unfold run, backtest_score_bins. cbv zeta.
      destruct (shift_closes_returns ta_rsi rolling_mean rolling_std df (- horizon) Hs)
        as [shifted E].
      rewrite E, length_compute_indicators. fold len.
      destruct (Z.leb_spec (len - horizon - 1) 260); [lia|].
      match goal with
      | |- context [replay ?d ?f ?t ?r] =>
          destruct (replay_returns d f t r) as [rows Hrows]
      end.
      + intros i Hi. apply range_spec in Hi.
        rewrite length_compute_indicators. subst len. lia.
      + rewrite Hrows. destruct rows; eexists; reflexivity. }
  assert (Hcases : (df <> [] /\ Pd.fits_intp (- horizon) = false) \/
                   (df = [] \/ Pd.fits_intp (- horizon) = true)).
  { destruct df as [|b l]; [right; left; reflexivity|].
    destruct (Pd.fits_intp (- horizon)); [right; right; reflexivity|].
    left. split; [discriminate | reflexivity]. }
  assert (Hexcl : df = [] \/ Pd.fits_intp (- horizon) = true ->
                  df <> [] /\ Pd.fits_intp (- horizon) = false -> False).
  { intros [H|H] [H1 H2]; [contradiction | congruence]. }
  split; [|split]; split.
  - intro E. destruct Hcases as [H|Hs]; [exact H|]. exfalso.
    destruct (Z.le_gt_cases horizon (-2)) as [Hh|Hh];
      [destruct (Z.le_gt_cases (len - horizon - 1) 260) as [Hg|Hg]|].
    + destruct (Hret Hs (or_intror Hg)) as [o Ho]. congruence.
    + pose proof (Hraise Hs Hh Hg) as F. congruence.
    + assert (Hh' : -1 <= horizon) by lia.
      destruct (Hret Hs (or_introl Hh')) as [o Ho]. congruence.
  - intros [Hne Hfit]. apply Hover; assumption.
  - intro E. destruct Hcases as [[Hne Hfit]|Hs].
    + pose proof (Hover Hne Hfit) as F. congruence.
    + split; [exact Hs|].
      destruct (Z.le_gt_cases horizon (-2)) as [Hh|Hh];
        [destruct (Z.le_gt_cases (len - horizon - 1) 260) as [Hg|Hg]|].
      * destruct (Hret Hs (or_intror Hg)) as [o Ho]. congruence.
      * split; assumption.
      * assert (Hh' : -1 <= horizon) by lia.
        destruct (Hret Hs (or_introl Hh')) as [o Ho]. congruence.
  - intros (Hs & Hh & Hg). apply Hraise; assumption.
  - intros [o Ho]. destruct Hcases as [[Hne Hfit]|Hs].
    + pose proof (Hover Hne Hfit) as F. congruence.
    + split; [exact Hs|].
      destruct (Z.le_gt_cases horizon (-2)) as [Hh|Hh]; [|left; lia].
      destruct (Z.le_gt_cases (len - horizon - 1) 260) as [Hg|Hg]; [right; exact Hg|].
      pose proof (Hraise Hs Hh Hg) as F. congruence.
  - intros [Hs Hh]. apply Hret; assumption.
Qed.

Lemma backtest_raises_iff_witness :
  backtest_score_bins rsi_absent rolling_undefined rolling_undefined mean_naive
                      (flat_series 262) (-2)
  = Raised IndexError /\
  backtest_score_bins rsi_absent rolling_undefined rolling_undefined mean_naive
                      (flat_series 300) (2 ^ 63 + 1)
  = Raised OverflowError.
Proof.
  split.
  - apply (proj2 (proj1 (proj2 (backtest_raises_iff rsi_absent rolling_undefined
                                  rolling_undefined mean_naive (flat_series 262) (-2))))).
    split; [right; reflexivity|]. vm_compute. split; [discriminate | reflexivity].
  - apply (proj2 (proj1 (backtest_raises_iff rsi_absent rolling_undefined
                           rolling_undefined mean_naive (flat_series 300) (2 ^ 63 + 1)))).
    split; [discriminate | reflexivity].
Defined.

Lemma bin_stat_shape (np_mean : list float -> float) (scores rets : list float)
      (b : Z * Z * string) :
  let st := bin_stat np_mean scores rets b in
  bin_name st = snd b /\
  (bin_n st = 0%nat <-> bin_win_rate st = None) /\
  (bin_n st = 0%nat <-> bin_avg_return st = None).
Proof.
  destruct b as [[lo hi] name]. cbv zeta. unfold bin_stat.
  destruct (List.length (filter id (map (in_bin lo hi) scores)) =? 0)%nat eqn:E;
    cbn [bin_name bin_n bin_win_rate bin_avg_return snd].
  - repeat split; reflexivity.
  - apply Nat.eqb_neq in E. repeat split; intro H; congruence.
Qed.

(** X10: a report echoes the horizon it was asked for, carries the five
    bins in table order (best to worst), gives a bin null statistics exactly
    when the bin is empty, and counts at least one sample and at most one per
    replayed row. *)
Theorem report_shape
        (ta_rsi : Pd.Series -> nat -> option Pd.Series)
        (rolling_mean rolling_std : nat -> Pd.Series -> Pd.Series)
        (np_mean : list float -> float)
        (df : list Bar) (horizon h : Z) (overall : Overall) (out : list BinStat) :
  backtest_score_bins ta_rsi rolling_mean rolling_std np_mean df horizon
  = Returned (Report overall out h) ->
  h = horizon /\
  map bin_name out = map snd bins /\
  Forall (fun b => (bin_n b = 0%nat <-> bin_win_rate b = None) /\
                   (bin_n b = 0%nat <-> bin_avg_return b = None)) out /\
  1 <= Z.of_nat (overall_n overall) <= Z.of_nat (List.length df) - horizon - 1 - 260.
Proof.
  unfold backtest_score_bins. cbv zeta.
  destruct (Pd.shift_checked _ _) as [shifted|]; [|discriminate].
  rewrite length_compute_indicators.
  destruct (Z.leb_spec (Z.of_nat (List.length df) - horizon - 1) 260) as [|Hg]; [discriminate|].
  match goal with |- context [replay ?d ?f ?t ?r] =>
    destruct (replay d f t r) as [rows|e] eqn:Hrep end; [|discriminate].
  apply replay_length in Hrep. rewrite length_range in Hrep. cbn [List.length] in Hrep.
  destruct rows as [|p rows]; [discriminate|].
  match goal with
  | |- Returned (Report ?o ?b _) = _ -> _ =>
      intro E;
      assert (Ho : overall = o) by congruence;
      assert (Hb : out = b) by congruence;
      assert (Hh : h = horizon) by congruence
  end.
  rewrite Ho, Hb. clear E Ho Hb.
  split; [exact Hh|]. split; [|split].
  - rewrite map_map. apply map_ext. intro b. apply bin_stat_shape.
  - apply Forall_map. apply Forall_forall. intros b _. apply bin_stat_shape.
  - cbn [overall_n]. rewrite length_map. cbn [List.length] in *. lia.
Qed.

Lemma report_shape_witness :
  exists overall out,
    backtest_score_bins rsi_absent rolling_undefined rolling_undefined mean_naive
                        (flat_series 282) 20 = Returned (Report overall out 20) /\
    map bin_name out = map snd bins /\
    1 <= Z.of_nat (overall_n overall) <= 1.
Proof.
  destruct (flat_282_reports rsi_absent rolling_undefined rolling_undefined mean_naive)
    as (overall & out & E & _).
  exists overall, out. split; [exact E|].
  destruct (report_shape _ _ _ _ _ _ _ _ _ E) as (_ & Hn & _ & Hc).
  split; [exact Hn|]. vm_compute in Hc. exact Hc.
Defined.

(* ------------------------------------------------------------------ *)
(** ** The order of the input rows *)

(** Two date-sorted arrangements of the same records coincide when the
    dates are distinct. *)
Lemma sorted_perm_unique (l1 : list Bar) :
  forall l2,
    StronglySorted date_le l1 -> StronglySorted date_le l2 ->
    Permutation l1 l2 -> NoDup (map date l1) -> l1 = l2.
Proof.
  induction l1 as [|a l1 IH]; intros l2 S1 S2 P N.
  - apply Permutation_nil in P. symmetry. exact P.
  - destruct l2 as [|b l2];
      [apply Permutation_sym, Permutation_nil in P; discriminate P|].
    apply StronglySorted_inv in S1. destruct S1 as [S1 F1].
    apply StronglySorted_inv in S2. destruct S2 as [S2 F2].
    inversion N as [|? ? Na N']; subst.
    assert (E : a = b).
    { assert (Hb : In b (a :: l1))
        by (apply (Permutation_in b (Permutation_sym P)); left; reflexivity).
      assert (Ha : In a (b :: l2))
        by (apply (Permutation_in a P); left; reflexivity).
      destruct Hb as [Hb|Hb]; [exact Hb|].
      destruct Ha as [Ha|Ha]; [symmetry; exact Ha|].
      exfalso. apply Na.
      assert (Hd : date a = date b).
      { pose proof (proj1 (Forall_forall _ _) F1 b Hb) as H1.
        pose proof (proj1 (Forall_forall _ _) F2 a Ha) as H2.
        unfold date_le in *. lia. }
      rewrite Hd. apply in_map. exact Hb. }
    subst b. f_equal.
    apply IH; try assumption. apply (Permutation_cons_inv P).
Qed.

Lemma sort_values_perm_eq (df df' : list Bar) :
  Permutation df df' -> NoDup (map date df) -> sort_values df' = sort_values df.
Proof.
  intros P N. symmetry. apply sorted_perm_unique.
  - apply sort_values_sorted.
  - apply sort_values_sorted.
  - eapply perm_trans; [apply Permutation_sym, sort_values_perm|].
    eapply perm_trans; [exact P | apply sort_values_perm].
  - apply (Permutation_NoDup (l := map date df)); [|exact N].
    apply Permutation_map. apply sort_values_perm.
Qed.

(** X11: the order in which the records arrive does not matter.  For a
    series with distinct dates, any rearrangement of the input gives the same
    indicator frame and the same backtest outcome. *)
Theorem input_order_irrelevant
        (ta_rsi : Pd.Series -> nat -> option Pd.Series)
        (rolling_mean rolling_std : nat -> Pd.Series -> Pd.Series)
        (np_mean : list float -> float)
        (df df' : list Bar) (horizon : Z) :
  Permutation df df' -> NoDup (map date df) ->
  compute_indicators ta_rsi rolling_mean rolling_std df'
  = compute_indicators ta_rsi rolling_mean rolling_std df /\
  backtest_score_bins ta_rsi rolling_mean rolling_std np_mean df' horizon
  = backtest_score_bins ta_rsi rolling_mean rolling_std np_mean df horizon.
Proof.
  intros P N.
  assert (E : compute_indicators ta_rsi rolling_mean rolling_std df'
              = compute_indicators ta_rsi rolling_mean rolling_std df).
  { unfold compute_indicators. cbv zeta. rewrite (sort_values_perm_eq df df' P N). reflexivity. }
  split; [exact E|].
  unfold backtest_score_bins. cbv zeta. rewrite E. reflexivity.
Qed.

Lemma input_order_irrelevant_witness :
  compute_indicators rsi_absent rolling_undefined rolling_undefined (rev (flat_series 3))
  = compute_indicators rsi_absent rolling_undefined rolling_undefined (flat_series 3).
Proof.
  refine (proj1 (input_order_irrelevant rsi_absent rolling_undefined rolling_undefined
                   mean_naive (flat_series 3) (rev (flat_series 3)) 20 _ _)).
  - apply Permutation_rev.
  - vm_compute. repeat constructor; cbn; intuition discriminate.
Defined.

(* ------------------------------------------------------------------ *)
(** ** No lookahead in the price columns *)

Lemma sort_values_sorted_id (df : list Bar) :
  StronglySorted date_le df -> sort_values df = df.
Proof.
  induction 1 as [|a l Hl IH Ha]; [reflexivity|].
  unfold sort_values in *. cbn [fold_right]. rewrite IH.
  destruct l as [|x l]; [reflexivity|].
  cbn [insert_by_date]. inversion Ha as [|? ? Hax _]; subst.
  unfold date_le in Hax.
  destruct (Z.leb_spec (date a) (date x)); [reflexivity | lia].
Qed.

Lemma firstn_sorted (n : nat) (df : list Bar) :
  StronglySorted date_le df -> StronglySorted date_le (firstn n df).
Proof.
  intro H. revert n. induction H as [|a l Hl IH Ha]; intros [|n]; cbn [firstn];
    try constructor.
  - apply IH.
  - apply Forall_forall. intros x Hx.
    apply (proj1 (Forall_forall _ _) Ha).
    rewrite <- (firstn_skipn n l). apply in_or_app. left. exact Hx.
Qed.

Module PrefixFacts.
#[local] Open Scope nat_scope.

Lemma at_firstn (n : nat) (xs : Pd.Series) (i : nat) (k : Z) :
  i < n -> (0 <= k)%Z ->
  Pd.at_ (firstn n xs) (Z.of_nat i - k) = Pd.at_ xs (Z.of_nat i - k).
Proof.
  intros Hi Hk. unfold Pd.at_.
  destruct (Z.ltb_spec (Z.of_nat i - k) 0); [reflexivity|].
  rewrite nth_firstn.
  destruct (Nat.ltb_spec (Z.to_nat (Z.of_nat i - k)) n); [reflexivity | lia].
Qed.

Lemma window_firstn (w n : nat) (xs : Pd.Series) (i : nat) :
  i < n -> Pd.window w (firstn n xs) i = Pd.window w xs i.
Proof.
  intro Hi. unfold Pd.window.
  destruct (Nat.ltb_spec (S i) w); [reflexivity|].
  rewrite skipn_firstn_comm, firstn_firstn.
  replace (Nat.min w (n - (S i - w))) with w by lia. reflexivity.
Qed.

Lemma rolling_firstn (op : float -> float -> float) (w n : nat) (xs : Pd.Series) (i : nat) :
  i < n -> i < List.length xs ->
  nth i (Pd.rolling op w (firstn n xs)) PrimFloat.nan
  = nth i (Pd.rolling op w xs) PrimFloat.nan.
Proof.
  intros Hi Hl.
  rewrite !rolling_at by (rewrite ?length_firstn; lia).
  rewrite window_firstn by exact Hi. reflexivity.
Qed.

End PrefixFacts.

(** X12: the columns computed from prices look back only.  On a series in
    strictly increasing date order, the record, return, momentum, 252-day high, drawdown and
    20-day range of row [i] are the same whether the engine sees the whole
    series or only its first [n > i] rows. *)
Theorem price_columns_no_lookahead
        (ta_rsi : Pd.Series -> nat -> option Pd.Series)
        (rolling_mean rolling_std : nat -> Pd.Series -> Pd.Series)
        (df : list Bar) (n i : nat) (row row' : Row) :
  StronglySorted date_lt df -> (i < n)%nat ->
  nth_error (compute_indicators ta_rsi rolling_mean rolling_std df) i = Some row ->
  nth_error (compute_indicators ta_rsi rolling_mean rolling_std (firstn n df)) i = Some row' ->
  bar row' = bar row /\
  ret row' = ret row /\ mom20 row' = mom20 row /\ mom60 row' = mom60 row /\
  high252 row' = high252 row /\ dd252 row' = dd252 row /\
  low20 row' = low20 row /\ high20 row' = high20 row /\ pos20 row' = pos20 row.
Proof.
  intros Hstrict Hi Hrow Hrow'.
  assert (Hs : StronglySorted date_le df).
  { clear - Hstrict. induction Hstrict as [|a l Hl IH Ha]; constructor; [exact IH|].
    eapply Forall_impl; [|exact Ha]. unfold date_lt, date_le. intros x Hx. lia. }
  assert (Hbar : bar row' = bar row).
  { pose proof (map_nth_error bar _ _ Hrow) as B.
    pose proof (map_nth_error bar _ _ Hrow') as B'.
    rewrite bars_compute_indicators in B, B'.
    rewrite (sort_values_sorted_id _ Hs) in B.
    rewrite (sort_values_sorted_id _ (firstn_sorted n df Hs)) in B'.
    rewrite nth_error_firstn in B'.
    destruct (Nat.ltb_spec i n); [congruence | lia]. }
  split; [exact Hbar|].
  destruct (price_columns_at _ _ _ _ _ _ Hrow)
    as (Hl & _ & Hret & Hm20 & Hm60 & Htop & Hdd & Hlo & Hhi & Hpos).
  destruct (price_columns_at _ _ _ _ _ _ Hrow')
    as (_ & _ & Hret' & Hm20' & Hm60' & Htop' & Hdd' & Hlo' & Hhi' & Hpos').
  rewrite (sort_values_sorted_id _ Hs) in *.
  rewrite (sort_values_sorted_id _ (firstn_sorted n df Hs)) in *.
  rewrite <- firstn_map in *.
  set (c := map close df) in *.
  assert (Hx : nth i (firstn n c) PrimFloat.nan = nth i c PrimFloat.nan).
  { rewrite nth_firstn. destruct (Nat.ltb_spec i n); [reflexivity | lia]. }
  rewrite Hret, Hm20, Hm60, Htop, Hdd, Hlo, Hhi, Hpos.
  rewrite Hret', Hm20', Hm60', Htop', Hdd', Hlo', Hhi', Hpos'.
  unfold Pd.rolling_min, Pd.rolling_max.
  rewrite !(PrefixFacts.rolling_firstn _ _ n c i Hi Hl).
  rewrite !(PrefixFacts.at_firstn n c i) by (exact Hi || lia).
  rewrite Hx. repeat split; reflexivity.
Qed.

Lemma price_columns_no_lookahead_witness :
  exists row row',
    nth_error (compute_indicators rsi_absent rolling_undefined rolling_undefined
                                  (flat_series 25)) 19 = Some row /\
    nth_error (compute_indicators rsi_absent rolling_undefined rolling_undefined
                                  (firstn 20 (flat_series 25))) 19 = Some row' /\
    pos20 row' = pos20 row.
Proof.
  destruct (nth_error (compute_indicators rsi_absent rolling_undefined rolling_undefined
                                          (flat_series 25)) 19) as [row|] eqn:E;
    [|vm_compute in E; discriminate E].
  destruct (nth_error (compute_indicators rsi_absent rolling_undefined rolling_undefined
                                          (firstn 20 (flat_series 25))) 19) as [row'|] eqn:E';
    [|vm_compute in E'; discriminate E'].
  exists row, row'. split; [reflexivity|]. split; [reflexivity|].
  refine (proj2 (proj2 (proj2 (proj2 (proj2 (proj2 (proj2 (proj2
            (price_columns_no_lookahead rsi_absent rolling_undefined rolling_undefined
               (flat_series 25) 20 19 row row' _ _ E E'))))))))).
  - unfold flat_series. cbn [seq map].
    repeat (constructor; [|repeat constructor; unfold date_lt; cbn; reflexivity]).
    constructor.
  - repeat constructor.
Defined.

(* ------------------------------------------------------------------ *)
(** ** The analysis endpoint *)

Section AnalysisFacts.

Variable ta_rsi : Pd.Series -> nat -> option Pd.Series.
Variable rolling_mean : nat -> Pd.Series -> Pd.Series.
Variable rolling_std : nat -> Pd.Series -> Pd.Series.
Variable fetch_ohlcv : string -> Z -> PyError + list Bar.

#[local] Abbreviation handler := (analysis ta_rsi rolling_mean rolling_std fetch_ohlcv).

(** On a frame of 60 rows or more the handler answers from the rule result of
    the indicator frame. *)
Lemma analysis_long (ai_fn : string -> string -> Z -> list (string * option float) ->
                             list string -> PyError + string)
      (ticker : string) (ai : Z) (df : list Bar) :
  fetch_ohlcv ticker 1 = inr df -> (60 <= List.length df)%nat ->
  exists rr,
    rule_result_from_df (compute_indicators ta_rsi rolling_mean rolling_std df) = Some rr /\
    handler ai_fn ticker ai
    = Ok (mkAnalysisBody ticker (rr_rating rr) (rr_score rr)
            (if (ai =? 1)%Z then
               match ai_fn ticker (rr_rating rr) (rr_score rr) (rr_features rr)
                           (rr_reasons rr) with
               | inr c => c
               | inl _ => rr_comment_rule rr
               end
             else rr_comment_rule rr)
            (rr_features rr)).
Proof.
  intros Hf Hlen. unfold analysis. rewrite Hf.
  destruct (Nat.ltb_spec (List.length df) 60); [lia|].
  destruct (rule_result_from_df (compute_indicators ta_rsi rolling_mean rolling_std df))
    as [rr|] eqn:E.
  - exists rr. split; reflexivity.
  - exfalso. unfold rule_result_from_df in E.
    destruct (rev (compute_indicators ta_rsi rolling_mean rolling_std df)) as [|r l] eqn:R.
    + apply (f_equal (@List.length Row)) in R.
      rewrite length_rev, length_compute_indicators in R. cbn [List.length] in R. lia.
    + destruct (_score_from_row r) as [[s rs] fs]. discriminate E.
Qed.

End AnalysisFacts.

(** X13: the handler function [analysis], called with an integer [ai] and
    with indicator routines that return, raises nothing but an HTTPException
    of status 400.  An exception of the provider is reported as
    "Type: message", a series of fewer than 60 rows is refused as a
    ValueError before any indicator is computed, and the handler raises in no
    other case.  The framework's own answers, before the handler is called
    and after it returned, are not part of the statement. *)
Theorem analysis_failures_are_400
        (ta_rsi : Pd.Series -> nat -> option Pd.Series)
        (rolling_mean rolling_std : nat -> Pd.Series -> Pd.Series)
        (fetch_ohlcv : string -> Z -> PyError + list Bar)
        (ai_fn : string -> string -> Z -> list (string * option float) ->
                 list string -> PyError + string)
        (ticker : string) (ai : Z) :
  let run := analysis ta_rsi rolling_mean rolling_std fetch_ohlcv ai_fn ticker ai in
  (forall e, fetch_ohlcv ticker 1 = inl e -> run = HTTPException 400 (detail_of e)) /\
  (forall df, fetch_ohlcv ticker 1 = inr df -> (List.length df < 60)%nat ->
              run = HTTPException 400 "ValueError: 가격 데이터가 비어있거나 너무 적습니다.") /\
  (forall status detail, run = HTTPException status detail ->
     status = 400 /\
     ((exists e, fetch_ohlcv ticker 1 = inl e) \/
      (exists df, fetch_ohlcv ticker 1 = inr df /\ (List.length df < 60)%nat))).
Proof.
  cbv zeta. split; [|split].
  - intros e He. unfold analysis. rewrite He. reflexivity.
  - intros df Hf Hlen. unfold analysis. rewrite Hf.
    destruct (Nat.ltb_spec (List.length df) 60); [reflexivity | lia].
  - intros status detail.
    destruct (fetch_ohlcv ticker 1) as [e|df] eqn:Hf.
    + unfold analysis. rewrite Hf. intros [= <- _]. split; [reflexivity|].
      left. exists e. reflexivity.
    + destruct (Nat.lt_ge_cases (List.length df) 60) as [Hlen|Hlen].
      * unfold analysis. rewrite Hf.
        destruct (Nat.ltb_spec (List.length df) 60); [|lia].
        intros [= <- _]. split; [reflexivity|].
        right. exists df. split; [reflexivity | exact Hlen].
      * destruct (analysis_long ta_rsi rolling_mean rolling_std fetch_ohlcv ai_fn
                                ticker ai df Hf Hlen) as (rr & _ & E).
        rewrite E. discriminate.
Qed.

Lemma analysis_failures_are_400_witness :
  analysis rsi_absent rolling_undefined rolling_undefined (fetch_flat 59) ai_without_key
           "005930" 0
  = HTTPException 400 "ValueError: 가격 데이터가 비어있거나 너무 적습니다.".
Proof.
  refine (proj1 (proj2 (analysis_failures_are_400
            rsi_absent rolling_undefined rolling_undefined (fetch_flat 59) ai_without_key
            "005930" 0)) (flat_series 59) _ _).
  - reflexivity.
  - vm_compute. repeat constructor.
Defined.

Lemma rule_result_fields (df : list Row) (rr : RuleResult) :
  rule_result_from_df df = Some rr ->
  0 <= rr_score rr <= 100 /\
  rr_rating rr = score_to_rating (rr_score rr) /\
  rr_comment_rule rr
  = rr_rating rr ++ " (점수 " ++ Py.decimal (rr_score rr) ++ "). "
      ++ String.concat " / " (firstn 5 (rr_reasons rr)).
Proof.
  unfold rule_result_from_df. destruct (rev df) as [|last l]; [discriminate|].
  change (_score_from_row last)
    with (score_of last, reasons_of last, features_of last).
  cbv beta iota. intros [= <-].
  cbn [rr_score rr_rating rr_comment_rule rr_reasons].
  split; [apply score_of_bounds|]. split; reflexivity.
Qed.

(** X14: on a series of 60 rows or more the handler function [analysis]
    returns a body, built from the rule result of the newest row: a score
    from 0 to 100 with its rating, and the features as the row scorer gave
    them, whatever doubles they hold.  The comment is the rule comment unless
    [ai = 1] and the comment service returns one; when the service raises,
    the rule comment is used and the handler still returns.  How the
    framework renders the returned body is not part of the statement. *)
Theorem analysis_answers_with_fallback
        (ta_rsi : Pd.Series -> nat -> option Pd.Series)
        (rolling_mean rolling_std : nat -> Pd.Series -> Pd.Series)
        (fetch_ohlcv : string -> Z -> PyError + list Bar)
        (ai_fn : string -> string -> Z -> list (string * option float) ->
                 list string -> PyError + string)
        (ticker : string) (ai : Z) (df : list Bar) :
  fetch_ohlcv ticker 1 = inr df -> (60 <= List.length df)%nat ->
  exists body rr,
    analysis ta_rsi rolling_mean rolling_std fetch_ohlcv ai_fn ticker ai = Ok body /\
    rule_result_from_df (compute_indicators ta_rsi rolling_mean rolling_std df) = Some rr /\
    body_ticker body = ticker /\
    body_score body = rr_score rr /\ 0 <= body_score body <= 100 /\
    body_rating body = score_to_rating (body_score body) /\
    body_features body = rr_features rr /\
    (ai <> 1 -> body_comment body = rr_comment_rule rr) /\
    (forall e, ai_fn ticker (rr_rating rr) (rr_score rr) (rr_features rr) (rr_reasons rr)
               = inl e -> body_comment body = rr_comment_rule rr) /\
    (forall c, ai = 1 ->
               ai_fn ticker (rr_rating rr) (rr_score rr) (rr_features rr) (rr_reasons rr)
               = inr c -> body_comment body = c).
Proof.
  intros Hf Hlen.
  destruct (analysis_long ta_rsi rolling_mean rolling_std fetch_ohlcv ai_fn
                          ticker ai df Hf Hlen) as (rr & Hrr & E).
  destruct (rule_result_fields _ _ Hrr) as (Hs & Hr & _).
  eexists. exists rr. split; [exact E|]. split; [exact Hrr|].
  cbn [body_ticker body_score body_rating body_features body_comment].
  split; [reflexivity|]. split; [reflexivity|]. split; [exact Hs|].
  split; [exact Hr|]. split; [reflexivity|]. split; [|split].
  - intro Hai. destruct (Z.eqb_spec ai 1); [contradiction | reflexivity].
  - intros e He. rewrite He. destruct (ai =? 1)%Z; reflexivity.
  - intros c -> Hc. rewrite Hc. reflexivity.
Qed.

Lemma analysis_answers_with_fallback_witness :
  exists body rr,
    analysis rsi_absent rolling_undefined rolling_undefined (fetch_flat 60) ai_without_key
             "005930" 1 = Ok body /\
    rule_result_from_df (compute_indicators rsi_absent rolling_undefined rolling_undefined
                                            (flat_series 60)) = Some rr /\
    body_comment body = rr_comment_rule rr.
Proof.
  destruct (analysis_answers_with_fallback
              rsi_absent rolling_undefined rolling_undefined (fetch_flat 60) ai_without_key
              "005930" 1 (flat_series 60) eq_refl)
    as (body & rr & E & Hrr & _ & _ & _ & _ & _ & _ & Hfall & _).
  - vm_compute. repeat constructor.
  - exists body, rr. split; [exact E|]. split; [exact Hrr|].
    apply (Hfall (mkPyError "RuntimeError" "OPENAI_API_KEY가 설정되지 않았습니다.")).
    reflexivity.
Defined.

(* ------------------------------------------------------------------ *)
(** ** The trend factors together *)

Module StrictOrderFacts.





End StrictOrderFacts.



(* ------------------------------------------------------------------ *)
(** ** The dashboard endpoint *)


